(** * SimpleAgent: a shallow embedding of [app/agent/agent.py]

    The agent classifies a query, asks an LLM provider for a reply, parses the
    reply into a files mapping ("FILE:" markers and fenced blocks), judges it
    with a quality gate and, when needed, synthesises a fallback codebase.
    The paths at which [app/utils/output_manager.py] writes the files are
    modelled after POSIX [pathlib].

    Conventions of the embedding:
    - a Python [str] is a Rocq [string] whose characters are read as the code
      points U+0000..U+00FF; [str.isspace] and [str.lower] are exact on that
      range, [str.capitalize] is exact on ASCII;
    - a Python [dict] is an association list in insertion order; assigning an
      existing key keeps its position, as CPython dicts do;
    - a raised exception is the [Raise] constructor of the result type [res];
    - an external call (an LLM provider) is an input of the model: the reply it
      returns, or the exception it raises. *)

From Stdlib Require Import String Ascii List Bool Arith Lia.
From Stdlib Require Import DecimalString Permutation.
From Stdlib Require DecimalNat.
Import ListNotations.
Open Scope string_scope.
Open Scope nat_scope.

(** ** Python string operations *)
Module Py.

Definition nl : string := String (ascii_of_nat 10) EmptyString.
Definition dq : string := String (ascii_of_nat 34) EmptyString.

(** [str.isspace] on one code point. *)
Definition is_space (c : ascii) : bool :=
  let n := nat_of_ascii c in
  ((9 <=? n) && (n <=? 13)) || ((28 <=? n) && (n <=? 32))
  || (n =? 133) || (n =? 160).

(** [str.lower] on one code point. *)
Definition lower_char (c : ascii) : ascii :=
  let n := nat_of_ascii c in
  if ((65 <=? n) && (n <=? 90)) || ((192 <=? n) && (n <=? 222) && negb (n =? 215))
  then ascii_of_nat (n + 32) else c.

(** [str.upper] on one ASCII code point. *)
Definition upper_char (c : ascii) : ascii :=
  let n := nat_of_ascii c in
  if (97 <=? n) && (n <=? 122) then ascii_of_nat (n - 32) else c.

Fixpoint lower (s : string) : string :=
  match s with
  | EmptyString => EmptyString
  | String c s' => String (lower_char c) (lower s')
  end.

(** [str.capitalize]. *)
Definition capitalize (s : string) : string :=
  match s with
  | EmptyString => EmptyString
  | String c s' => String (upper_char c) (lower s')
  end.

(** [sub in s]. *)
Fixpoint contains (sub s : string) : bool :=
  prefix sub s || match s with
                  | EmptyString => false
                  | String _ s' => contains sub s'
                  end.

Definition startswith (s pre : string) : bool := prefix pre s.

Fixpoint rev_str (s : string) (acc : string) : string :=
  match s with
  | EmptyString => acc
  | String c s' => rev_str s' (String c acc)
  end.

Definition reverse (s : string) : string := rev_str s EmptyString.

Definition endswith (s suf : string) : bool := prefix (reverse suf) (reverse s).

(** [str.lstrip()] and [str.rstrip()] with no argument. *)
Fixpoint lstrip (s : string) : string :=
  match s with
  | EmptyString => EmptyString
  | String c s' => if is_space c then lstrip s' else s
  end.

Definition rstrip (s : string) : string := reverse (lstrip (reverse s)).

Definition strip (s : string) : string := rstrip (lstrip s).

(** [bool(s)] for a string. *)
Definition truthy (s : string) : bool :=
  match s with EmptyString => false | _ => true end.

(** [s.split(sep)] for a one-character separator: never the empty list. *)
Fixpoint split_acc (sep : ascii) (s : string) (cur : string) : list string :=
  match s with
  | EmptyString => [reverse cur]
  | String c s' =>
      if Ascii.eqb c sep then reverse cur :: split_acc sep s' EmptyString
      else split_acc sep s' (String c cur)
  end.

Definition split (sep : ascii) (s : string) : list string := split_acc sep s EmptyString.

Definition split_lines (s : string) : list string := split (ascii_of_nat 10) s.

(** [sep.join(xs)]. *)
Definition join (sep : string) (xs : list string) : string := String.concat sep xs.

(** [s[n:]] and [s[:n]]. *)
Fixpoint drop (n : nat) (s : string) : string :=
  match n, s with
  | O, _ => s
  | S _, EmptyString => EmptyString
  | S n', String _ s' => drop n' s'
  end.

Fixpoint take (n : nat) (s : string) : string :=
  match n, s with
  | O, _ => EmptyString
  | S _, EmptyString => EmptyString
  | S n', String c s' => String c (take n' s')
  end.

(** [s.replace(old, new)] for a non-empty [old]: every non-overlapping
    occurrence, left to right. *)
Fixpoint replace_go (old new : string) (skip : nat) (s : string) : string :=
  match s with
  | EmptyString => EmptyString
  | String c s' =>
      match skip with
      | S k => replace_go old new k s'
      | O => if prefix old s then new ++ replace_go old new (String.length old - 1) s'
             else String c (replace_go old new 0 s')
      end
  end.

Definition replace (old new s : string) : string := replace_go old new 0 s.

Definition of_nat (n : nat) : string := NilEmpty.string_of_uint (Nat.to_uint n).

(** [sum(1 for k in ks if k in s)]. *)
Definition count_in (ks : list string) (s : string) : nat :=
  length (filter (fun k => contains k s) ks).

End Py.

Import Py.

(** ** Python dicts with string keys *)
Module Dict.

Fixpoint get {V} (k : string) (d : list (string * V)) : option V :=
  match d with
  | [] => None
  | (k', v) :: d' => if String.eqb k k' then Some v else get k d'
  end.

Definition mem {V} (k : string) (d : list (string * V)) : bool :=
  match get k d with Some _ => true | None => false end.

(** [d[k] = v]: in place when [k] is present, appended otherwise. *)
Fixpoint set {V} (k : string) (v : V) (d : list (string * V)) : list (string * V) :=
  match d with
  | [] => [(k, v)]
  | (k', v') :: d' => if String.eqb k k' then (k', v) :: d' else (k', v') :: set k v d'
  end.

Definition keys {V} (d : list (string * V)) : list string := map fst d.

End Dict.

(** ** The quality gate: [SimpleAgent._is_fallback_code] *)
Module Gate.

Definition fallback_patterns : list string :=
  ["Hello, World"; "TODO: Implement"; "basic template"; "placeholder"; "print('Hello"].

Definition decl_keywords : list string :=
  ["def "; "class "; "function "; "const "; "let "; "var "].

(** [line.strip() and not line.strip().startswith('#')
     and not line.strip().startswith('//')] *)
Definition is_code_line (l : string) : bool :=
  truthy (strip l) && negb (startswith (strip l) "#") && negb (startswith (strip l) "//").

(** [len([line for line in content.split('\n') if ...])] *)
Definition code_lines (content : string) : nat :=
  length (filter is_code_line (split_lines content)).

(** [sum(... for content in files.values())] *)
Definition total_code_lines (files : list (string * string)) : nat :=
  fold_right (fun fc acc => code_lines (snd fc) + acc) 0 files.

(** The [for file_path, content in files.items()] loop: [false] is the early
    [return False]; running off the end falls through to [k]. *)
Fixpoint check_files (files : list (string * string)) (k : bool) : bool :=
  match files with
  | [] => k
  | (_, content) :: files' =>
      let content_lower := lower content in
      if existsb (fun p => contains (lower p) content_lower) fallback_patterns then
        if 200 <? String.length content then false
        else if existsb (fun kw => contains kw content) decl_keywords then
          if 5 <? code_lines content then false else check_files files' k
        else check_files files' k
      else check_files files' k
  end.

Definition is_fallback_code (files : list (string * string)) : bool :=
  match files with
  | [] => true
  | _ => check_files files (total_code_lines files <? 10)
  end.

(** The gate as the spec words it: empty, or every file is placeholder-like
    (one of four phrases, and short or without a declaration keyword with more
    than five code lines), or fewer than 10 code lines in all. *)
Definition spec_placeholder_like (content : string) : bool :=
  existsb (fun p => contains p (lower content))
    ["hello, world"; "todo: implement"; "basic template"; "placeholder"]
  && ((String.length content <? 200)
      || negb (existsb (fun kw => contains kw content) decl_keywords
               && (5 <? code_lines content))).

Definition spec_is_fallback (files : list (string * string)) : bool :=
  match files with
  | [] => true
  | _ => forallb (fun fc => spec_placeholder_like (snd fc)) files
         || (total_code_lines files <? 10)
  end.

(** A file whose placeholder phrase comes with real code: it stops the gate. *)
Definition substantial_placeholder (content : string) : bool :=
  existsb (fun p => contains (lower p) (lower content)) fallback_patterns
  && ((200 <? String.length content)
      || (existsb (fun kw => contains kw content) decl_keywords
          && (5 <? code_lines content))).

(** The gate as amended: empty, or no substantial placeholder file and fewer
    than 10 code lines in all. *)
Definition amended_is_fallback (files : list (string * string)) : bool :=
  match files with
  | [] => true
  | _ => negb (existsb (fun fc => substantial_placeholder (snd fc)) files)
         && (total_code_lines files <? 10)
  end.

End Gate.

(** ** The classifier: [SimpleAgent._analyze_query] *)
Module Classifier.

Definition code_keywords : list string :=
  ["create"; "build"; "develop"; "implement"; "write code";
   "application"; "app"; "program"; "script"; "function";
   "api"; "service"; "website"; "web app"; "database";
   "class"; "module"; "package"; "framework"].

Definition text_keywords : list string :=
  ["explain"; "what is"; "how does"; "describe"; "tell me about";
   "information"; "definition"; "concept"; "theory"].

Record analysis := {
  should_generate_code : bool;
  code_score : nat;
  text_score : nat;
  language : string;
  framework : option string;
  reason : string
}.

Definition language_keywords : list (string * list string) :=
  [("python", ["python"; "py"; "django"; "flask"; "fastapi"]);
   ("javascript", ["javascript"; "js"; "node"; "react"; "vue"; "angular"]);
   ("typescript", ["typescript"; "ts"]);
   ("java", ["java"; "spring"; "maven"]);
   ("go", ["go"; "golang"]);
   ("rust", ["rust"]);
   ("cpp", ["c++"; "cpp"]);
   ("c", ["c programming"; "c language"])].

Definition detect_language (query : string) : string :=
  let query_lower := lower query in
  match find (fun lk => existsb (fun kw => contains kw query_lower) (snd lk))
              language_keywords with
  | Some (lang, _) => lang
  | None => "python"
  end.

Definition frameworks : list (string * string) :=
  [("django", "django"); ("flask", "flask"); ("fastapi", "fastapi");
   ("react", "react"); ("vue", "vue"); ("angular", "angular");
   ("express", "express"); ("spring", "spring")].

Definition detect_framework (query : string) : option string :=
  let query_lower := lower query in
  match find (fun kf => contains (fst kf) query_lower) frameworks with
  | Some (_, fw) => Some fw
  | None => None
  end.

Definition analyze_query (query : string) : analysis :=
  let query_lower := lower query in
  let cs := count_in code_keywords query_lower in
  let ts := count_in text_keywords query_lower in
  let sgc := (ts <? cs) && (0 <? cs) in
  {| should_generate_code := sgc;
     code_score := cs;
     text_score := ts;
     language := detect_language query;
     framework := detect_framework query;
     reason := if sgc then "Code generation suitable"
               else "Query better suited for text response" |}.

End Classifier.

Import Classifier.

(** ** Exceptions and the structure tree: [SimpleAgent._build_structure_tree] *)
Module Tree.

(** The Python exceptions the model distinguishes.  [is_exception] says
    whether the class derives from [Exception] (and is caught by
    [except Exception]); the last three derive only from [BaseException]. *)
Inductive exn :=
| TypeError (msg : string)
| ValueError (msg : string)
| IndexError (msg : string)
| AttributeError (msg : string)
| ConnectionError (msg : string)
| AuthenticationError (msg : string)
| KeyboardInterrupt
| SystemExit
| CancelledError.

Definition is_exception (e : exn) : bool :=
  match e with
  | KeyboardInterrupt | SystemExit | CancelledError => false
  | _ => true
  end.

(** [str(e)] *)
Definition exn_str (e : exn) : string :=
  match e with
  | TypeError m | ValueError m | IndexError m | AttributeError m
  | ConnectionError m | AuthenticationError m => m
  | KeyboardInterrupt | SystemExit | CancelledError => ""
  end.

Inductive res (A : Type) := Ok (a : A) | Raise (e : exn).
Arguments Ok {A} a.
Arguments Raise {A} e.

Definition bind {A B} (m : res A) (f : A -> res B) : res B :=
  match m with Ok a => f a | Raise e => Raise e end.

Notation "x <- m ;; k" := (bind m (fun x => k)) (at level 61, m at next level, right associativity).

#[local] Set Warnings "-register-all".

(** A value of the structure dict: the leaf marker ["file"] or a nested dict. *)
Inductive node := NFile | NDir (d : list (string * node)).

Definition str_item_assignment : exn :=
  TypeError "'str' object does not support item assignment".

Definition str_indices : exn :=
  TypeError "string indices must be integers, not 'str'".

(** What the loop raises once [current] is the leaf marker ["file"] (a [str])
    and [rest] are the parts still to process.  The last part is assigned:
    [current[parts[-1]] = "file"].  An inner part [q] is first tested with
    [q not in current], a substring test on a [str]: a substring of ["file"]
    is then used as an index ([current = current[q]]), any other part is
    assigned ([current[q] = {}]). *)
Definition on_leaf (rest : list string) : exn :=
  match rest with
  | q :: _ :: _ => if contains q "file" then str_indices else str_item_assignment
  | _ => str_item_assignment
  end.

(** The inner loop of [_build_structure_tree] on one path's parts, against the
    dict [current]: descending into the leaf marker ["file"] (a [str]) raises. *)
Fixpoint insert_path (parts : list string) (current : list (string * node))
  : res (list (string * node)) :=
  match parts with
  | [] => Ok current
  | [last] => Ok (Dict.set last NFile current)
  | part :: rest =>
      match Dict.get part current with
      | None =>
          sub <- insert_path rest [] ;;
          Ok (Dict.set part (NDir sub) current)
      | Some (NDir sub) =>
          sub' <- insert_path rest sub ;;
          Ok (Dict.set part (NDir sub') current)
      | Some NFile => Raise (on_leaf rest)
      end
  end.

Definition segments (file_path : string) : list string := split "/" file_path.

Fixpoint build_from (ks : list string) (structure : list (string * node))
  : res (list (string * node)) :=
  match ks with
  | [] => Ok structure
  | k :: ks' => structure' <- insert_path (segments k) structure ;; build_from ks' structure'
  end.

Definition build_structure_tree (files : list (string * string)) : res (list (string * node)) :=
  build_from (Dict.keys files) [].

(** The node reached by following [parts] from a dict. *)
Fixpoint lookup_path (parts : list string) (d : list (string * node)) : option node :=
  match parts with
  | [] => None
  | [last] => Dict.get last d
  | part :: rest =>
      match Dict.get part d with
      | Some (NDir sub) => lookup_path rest sub
      | _ => None
      end
  end.

End Tree.

Import Tree.

(** ** The response parser's single-pass scan
    ([SimpleAgent._parse_codebase_response], the [while] loop) *)
Module Scan.

Record state := {
  files : list (string * string);
  current_file : option string;
  current_content : list string;
  in_code_block : bool;
  code_block_lang : option string
}.

Definition init : state :=
  {| files := []; current_file := None; current_content := [];
     in_code_block := false; code_block_lang := None |}.

(** [if current_file:] (None and "" are both false) *)
Definition has_file (cf : option string) : bool :=
  match cf with Some f => truthy f | None => false end.

Definition ext_map : list (string * string) :=
  [("python", "py"); ("py", "py");
   ("javascript", "js"); ("js", "js");
   ("typescript", "ts"); ("ts", "ts");
   ("html", "html"); ("css", "css");
   ("json", "json"); ("yaml", "yml"); ("yml", "yml");
   ("markdown", "md"); ("md", "md")].

Definition ext_of (lang : string) : string :=
  match Dict.get (lower lang) ext_map with Some e => e | None => "txt" end.

(** ['\n'.join(current_content).strip()] *)
Definition committed (content : list string) : string := strip (join nl content).

Definition commit (st : state) : list (string * string) :=
  match st.(current_file) with
  | Some f => Dict.set f (committed st.(current_content)) st.(files)
  | None => st.(files)
  end.

(** [any(f.startswith('README') or f.endswith('.md') for f in files.keys())] *)
Definition readme_like (f : string) : bool := startswith f "README" || endswith f ".md".

Definition step (st : state) (line : string) : state :=
  if startswith (strip line) "FILE:" then
    {| files := if has_file st.(current_file) then commit st else st.(files);
       current_file := Some (strip (replace "FILE:" "" line));
       current_content := [];
       in_code_block := false;
       code_block_lang := st.(code_block_lang) |}
  else if startswith (strip line) "```" then
    if negb st.(in_code_block) then
      let lang := strip (drop 3 (strip line)) in
      let cf :=
        if has_file st.(current_file) && (match st.(current_content) with [] => true | _ => false end)
        then st.(current_file)
        else if negb (has_file st.(current_file)) then
          if truthy lang then
            if contains "main" (lower lang) || negb (has_file st.(current_file))
            then Some ("main." ++ ext_of lang)
            else Some ("file." ++ ext_of lang)
          else st.(current_file)
        else st.(current_file) in
      {| files := st.(files); current_file := cf; current_content := st.(current_content);
         in_code_block := true; code_block_lang := Some lang |}
    else
      if has_file st.(current_file) then
        {| files := match st.(current_content) with [] => st.(files) | _ => commit st end;
           current_file := None; current_content := [];
           in_code_block := false; code_block_lang := st.(code_block_lang) |}
      else
        {| files := st.(files); current_file := st.(current_file);
           current_content := st.(current_content);
           in_code_block := false; code_block_lang := st.(code_block_lang) |}
  else if has_file st.(current_file) then
    {| files := st.(files); current_file := st.(current_file);
       current_content := st.(current_content) ++ [line];
       in_code_block := st.(in_code_block); code_block_lang := st.(code_block_lang) |}
  else if truthy (strip line) && negb (startswith line "```") && negb st.(in_code_block) then
    if negb (existsb readme_like (Dict.keys st.(files))) then
      match Dict.get "README.md" st.(files) with
      | None =>
          {| files := Dict.set "README.md" line st.(files); current_file := st.(current_file);
             current_content := st.(current_content);
             in_code_block := st.(in_code_block); code_block_lang := st.(code_block_lang) |}
      | Some r =>
          {| files := Dict.set "README.md" (r ++ nl ++ line) st.(files);
             current_file := st.(current_file); current_content := st.(current_content);
             in_code_block := st.(in_code_block); code_block_lang := st.(code_block_lang) |}
      end
    else st
  else st.

(** The loop over [content.split('\n')]. *)
Definition scan_lines (lines : list string) : state := fold_left step lines init.

(** [if current_file and current_content: files[current_file] = ...] *)
Definition finish (st : state) : list (string * string) :=
  if has_file st.(current_file) && (match st.(current_content) with [] => false | _ => true end)
  then commit st else st.(files).

Definition scan (content : string) : list (string * string) :=
  finish (scan_lines (split_lines content)).

End Scan.

(** ** The alternative format: [SimpleAgent._parse_alternative_format]
    The two regular expressions are run by hand: [findall] and [split] scan
    left to right, and after a failed attempt move on by one character. *)
Module Alt.

(** [\w] on one code point (ASCII letters, digits, underscore, and the
    Latin-1 letters). *)
Definition is_word (c : ascii) : bool :=
  let n := nat_of_ascii c in
  ((48 <=? n) && (n <=? 57)) || ((65 <=? n) && (n <=? 90)) || (n =? 95)
  || ((97 <=? n) && (n <=? 122)) || (n =? 170) || (n =? 178) || (n =? 179)
  || (n =? 181) || (n =? 185) || (n =? 186) || ((188 <=? n) && (n <=? 190))
  || ((192 <=? n) && (n <=? 255) && negb (n =? 215) && negb (n =? 247)).

(** The longest prefix of word characters, and the rest. *)
Fixpoint span_word (s : string) : string * string :=
  match s with
  | String c s' => if is_word c then let (w, r) := span_word s' in (String c w, r) else ("", s)
  | EmptyString => ("", "")
  end.

(** [.*?```] with DOTALL: the text up to the first [```], and what follows it. *)
Fixpoint upto_fence (s : string) : option (string * string) :=
  if prefix "```" s then Some ("", drop 3 s)
  else match s with
       | EmptyString => None
       | String c s' =>
           match upto_fence s' with
           | Some (body, rest) => Some (String c body, rest)
           | None => None
           end
       end.

(** [```(\w+)?\n(.*?)```] matched at the start of [s]: group 1 ("" when it does
    not take part), group 2 and the text after the match.  Backtracking on
    [(\w+)?] cannot help: a shorter word is followed by a word character. *)
Definition match_block (s : string) : option (string * string * string) :=
  if prefix "```" s then
    let (w, r) := span_word (drop 3 s) in
    match r with
    | String c r' =>
        if Ascii.eqb c (ascii_of_nat 10) then
          match upto_fence r' with
          | Some (body, rest) => Some (w, body, rest)
          | None => None
          end
        else None
    | EmptyString => None
    end
  else None.

(** [re.findall(r'```(\w+)?\n(.*?)```', content, re.DOTALL)] *)
Fixpoint findall_go (fuel : nat) (s : string) : list (string * string) :=
  match fuel with
  | O => []
  | S fuel' =>
      match match_block s with
      | Some (lang, code, rest) => (lang, code) :: findall_go fuel' rest
      | None => match s with
                | EmptyString => []
                | String _ s' => findall_go fuel' s'
                end
      end
  end.

Definition findall_blocks (content : string) : list (string * string) :=
  findall_go (S (String.length content)) content.

(** [```.*?```] matched at the start of [s]: the text after the match. *)
Definition match_fenced (s : string) : option string :=
  if prefix "```" s then
    match upto_fence (drop 3 s) with Some (_, rest) => Some rest | None => None end
  else None.

(** [re.split(r'```.*?```', content, flags=re.DOTALL)]: [cur] is the piece
    being read. *)
Fixpoint split_go (fuel : nat) (s : string) (cur : string) : list string :=
  match fuel with
  | O => [reverse cur ++ s]
  | S fuel' =>
      match match_fenced s with
      | Some rest => reverse cur :: split_go fuel' rest ""
      | None => match s with
                | EmptyString => [reverse cur]
                | String c s' => split_go fuel' s' (String c cur)
                end
      end
  end.

Definition split_fenced (content : string) : list string :=
  split_go (S (String.length content)) content "".

Definition alt_ext_map : list (string * string) :=
  [("python", "py"); ("py", "py");
   ("javascript", "js"); ("js", "js");
   ("typescript", "ts"); ("ts", "ts");
   ("html", "html"); ("css", "css");
   ("json", "json")].

Fixpoint add_blocks (i : nat) (language : string) (blocks : list (string * string))
    (files : list (string * string)) : list (string * string) :=
  match blocks with
  | [] => files
  | (lang, code) :: blocks' =>
      let lang := if truthy lang then lang else language in
      let ext := match Dict.get (lower lang) alt_ext_map with Some e => e | None => "txt" end in
      let filename := match i with
                      | O => "main." ++ ext
                      | _ => "file_" ++ of_nat i ++ "." ++ ext
                      end in
      add_blocks (S i) language blocks' (Dict.set filename (strip code) files)
  end.

Definition parse_alternative_format (content : string) (a : analysis) : list (string * string) :=
  let files := add_blocks 0 a.(language) (findall_blocks content) [] in
  let text_parts := split_fenced content in
  let readme_text :=
    join (nl ++ nl)
      (map strip (filter (fun p => truthy (strip p) && negb (startswith (strip p) "FILE:"))
                    text_parts)) in
  if truthy readme_text && (50 <? String.length readme_text)
  then Dict.set "README.md" readme_text files
  else files.

End Alt.

(** ** [SimpleAgent._generate_comprehensive_readme] *)
Module Readme.

(** A block of lines, each ended by a newline (a triple-quoted literal that
    ends with a line break). *)
Definition lines (xs : list string) : string := String.concat "" (map (fun x => x ++ nl) xs).

Fixpoint insert_sorted (x : string) (xs : list string) : list string :=
  match xs with
  | [] => [x]
  | y :: ys => if String.leb x y then x :: y :: ys else y :: insert_sorted x ys
  end.

(** [sorted(...)] on strings: code point order. *)
Definition sorted (xs : list string) : list string := fold_right insert_sorted [] xs.

Definition opt_truthy (o : option string) : bool :=
  match o with Some s => truthy s | None => false end.

Definition opt_str (o : option string) : string :=
  match o with Some s => s | None => "None" end.

Definition find_main_file (files : list (string * string)) : option string :=
  match find (fun f => endswith f "main.py" || endswith f "main.js" || endswith f "main.ts"
                       || String.eqb f "app.py" || String.eqb f "index.js")
             (Dict.keys files) with
  | Some f => Some f
  | None => find (fun f => endswith f ".py" || endswith f ".js" || endswith f ".ts")
                 (Dict.keys files)
  end.

Definition framework_in (fw : option string) (xs : list string) : bool :=
  match fw with Some f => existsb (String.eqb f) xs | None => false end.

Definition is_js_ts (language : string) : bool :=
  String.eqb language "javascript" || String.eqb language "typescript".

Definition generate_comprehensive_readme (files : list (string * string)) (language : string)
    (framework : option string) : string :=
  let main_file := find_main_file files in
  let is_web_app :=
    existsb (fun f => contains "app" (lower f) || contains "server" (lower f)
                      || contains "api" (lower f)) (Dict.keys files)
    || framework_in framework ["fastapi"; "flask"; "express"; "react"] in
  let has_requirements := Dict.mem "requirements.txt" files in
  let has_package_json := Dict.mem "package.json" files in
  let fw_line := if opt_truthy framework then "- Framework: " ++ opt_str framework else "" in
  let head :=
    lines ["# Generated Project"; "";
           "## Description";
           "This project was generated by SimpleAgent. Please review the code and customize as needed.";
           "";
           "## Technology Stack";
           "- Language: " ++ language;
           fw_line; "";
           "## Prerequisites"] in
  let prereq :=
    if String.eqb language "python" then
      lines ["- Python 3.8 or higher"; "- pip (Python package manager)"]
      ++ (if opt_truthy framework then "- " ++ opt_str framework ++ " framework" ++ nl else "")
    else if is_js_ts language then
      lines ["- Node.js 14.x or higher"; "- npm (Node Package Manager)"]
      ++ (if opt_truthy framework then "- " ++ opt_str framework ++ " framework" ++ nl else "")
    else "" in
  let install :=
    nl ++ "## Installation" ++ nl ++ nl
    ++ (if String.eqb language "python" then
          lines ["1. Create a virtual environment (recommended):";
                 "   ```bash";
                 "   python -m venv venv";
                 "   ";
                 "   # On Windows:";
                 "   venv\Scripts\activate";
                 "   ";
                 "   # On macOS/Linux:";
                 "   source venv/bin/activate";
                 "   ```";
                 "";
                 "2. Install dependencies:";
                 "   ```bash";
                 "   pip install -r requirements.txt";
                 "   ```"]
        else if is_js_ts language then
          lines ["1. Install dependencies:"; "   ```bash"; "   npm install"; "   ```"]
        else "") in
  let run_cmd (tool : string) (title : string) (f : string) :=
    lines [title; "   ```bash"; "   " ++ tool ++ " " ++ f; "   ```"] in
  let how_to_run :=
    nl ++ "## How to Run" ++ nl ++ nl
    ++ (if is_web_app then
          if framework_in framework ["fastapi"] then
            lines ["Run the FastAPI application:";
                   "   ```bash";
                   "   uvicorn main:app --reload";
                   "   ```";
                   "   ";
                   "   Or if using app.py:";
                   "   ```bash";
                   "   uvicorn app:app --reload";
                   "   ```";
                   "   ";
                   "   The application will be available at: http://localhost:8000"]
          else if framework_in framework ["flask"] then
            lines ["Run the Flask application:";
                   "   ```bash";
                   "   python " ++ (match main_file with Some f => if truthy f then f else "app.py"
                                                     | None => "app.py" end);
                   "   ```";
                   "   ";
                   "   The application will be available at: http://localhost:5000"]
          else if framework_in framework ["express"] then
            lines ["Run the Express server:";
                   "   ```bash";
                   "   npm start";
                   "   ```";
                   "   ";
                   "   Or:";
                   "   ```bash";
                   "   node main.js";
                   "   ```";
                   "   ";
                   "   The server will be available at: http://localhost:3000"]
          else
            match main_file with
            | Some f => if truthy f then
                          if String.eqb language "python" then run_cmd "python" "Run the application:" f
                          else run_cmd "node" "Run the application:" f
                        else ""
            | None => ""
            end
        else
          match main_file with
          | Some f =>
              if truthy f then
                if String.eqb language "python" then run_cmd "python" "Run the script:" f
                else run_cmd "node" "Run the script:" f
              else lines ["Run the main file:"; "   ```bash"; "   python main.py"; "   ```";
                          "   (Adjust the command based on your main entry point)"]
          | None =>
              lines ["Run the main file:"; "   ```bash"; "   python main.py"; "   ```";
                     "   (Adjust the command based on your main entry point)"]
          end) in
  let structure :=
    nl ++ "## Project Structure" ++ nl ++ nl
    ++ "Key files in this project:" ++ nl ++ nl
    ++ String.concat "" (map (fun f => "- `" ++ f ++ "`" ++ nl) (firstn 10 (sorted (Dict.keys files)))) in
  let usage :=
    nl ++ "## Usage" ++ nl ++ nl
    ++ "Please refer to the code comments and implementation for usage details." ++ nl in
  let notes :=
    nl ++ "## Notes" ++ nl ++ nl
    ++ "- This code was automatically generated. Please review and test before production use." ++ nl
    ++ "- Make sure all dependencies are installed before running." ++ nl
    ++ (if negb has_requirements && negb has_package_json then
          "- **Important**: Dependencies file may be missing. Please check and add required packages." ++ nl
        else "") in
  head ++ prereq ++ install ++ how_to_run ++ structure ++ usage ++ notes.

End Readme.

(** ** [SimpleAgent._parse_codebase_response] *)
Module Parser.

Record codebase := {
  cb_files : list (string * string);
  cb_structure : list (string * node)
}.

Definition readme_exists (files : list (string * string)) : bool :=
  existsb (fun f => endswith (lower f) "readme.md" || String.eqb (lower f) "readme.md")
          (Dict.keys files).

Definition parse_codebase_response (content : string) (a : analysis) : res codebase :=
  let files := Scan.scan content in
  let files := match files with [] => Alt.parse_alternative_format content a | _ => files end in
  match files with
  | [] => Ok {| cb_files := []; cb_structure := [] |}
  | _ =>
      let files :=
        if readme_exists files then files
        else Dict.set "README.md"
               (Readme.generate_comprehensive_readme files a.(language) a.(framework)) files in
      structure <- build_structure_tree files ;;
      Ok {| cb_files := files; cb_structure := structure |}
  end.

End Parser.

Import Parser.

(** ** The fallback synthesizer: [SimpleAgent._generate_enhanced_fallback] and
    the generators it calls *)
Module Fallback.

Local Infix "+++" := app (at level 60, right associativity).

Definition quoted (s : string) : string := dq ++ s ++ dq.
Definition dq3 : string := dq ++ dq ++ dq.

Definition any_in (ks : list string) (s : string) : bool := existsb (fun k => contains k s) ks.

Definition fw_is (framework : option string) (name : string) : bool :=
  match framework with Some f => String.eqb f name | None => false end.

(** [SimpleAgent._extract_requirements] *)
Definition extract_requirements (query : string) : string :=
  let query_lower := lower query in
  let reqs :=
    (if any_in ["authentication"; "login"; "auth"] query_lower
     then ["- User authentication/login functionality"] else [])
    +++ (if any_in ["database"; "db"; "sql"] query_lower then ["- Database integration"] else [])
    +++ (if any_in ["api"; "rest"; "endpoint"] query_lower then ["- API endpoints/REST API"] else [])
    +++ (if any_in ["crud"; "create"; "read"; "update"; "delete"] query_lower
        then ["- CRUD operations"] else [])
    +++ (if any_in ["todo"; "task"] query_lower then ["- Todo/task management features"] else [])
    +++ (if any_in ["web"; "website"; "html"] query_lower then ["- Web interface/HTML pages"] else [])
    +++ (if any_in ["visualization"; "chart"; "graph"; "plot"] query_lower
        then ["- Data visualization/charts"] else [])
    +++ (if any_in ["csv"; "excel"; "data"] query_lower then ["- Data file processing"] else [])
    +++ (if any_in ["cli"; "command"; "terminal"] query_lower then ["- Command-line interface"] else []) in
  let reqs := match reqs with
              | [] => ["- Implement the functionality described in the user's request"]
              | _ => reqs
              end in
  join nl reqs.

(** [SimpleAgent._generate_python_code] *)
Definition generate_python_code (query requirements : string) (framework : option string) : string :=
  let ql := lower query in
  let header := dq3 ++ nl ++ "Generated by SimpleAgent" ++ nl ++ "Query: " ++ query ++ nl ++ dq3 ++ nl in
  let imports :=
    (if any_in ["api"; "rest"] ql then
       if fw_is framework "fastapi" then
         ["from fastapi import FastAPI, HTTPException"; "from pydantic import BaseModel"]
       else if fw_is framework "flask" then ["from flask import Flask, request, jsonify"]
       else ["from http.server import HTTPServer, BaseHTTPRequestHandler"; "import json"]
     else [])
    +++ (if any_in ["database"; "db"; "sql"] ql then ["import sqlite3"; "import os"] else [])
    +++ (if any_in ["csv"; "data"] ql then ["import csv"; "import pandas as pd"] else [])
    +++ (if any_in ["authentication"; "login"; "auth"] ql
        then ["import hashlib"; "import secrets"] else [])
    +++ (if any_in ["todo"; "task"] ql
        then ["from datetime import datetime"; "from typing import List, Dict, Optional"] else []) in
  let import_parts := match imports with [] => [] | _ => [join nl imports; ""] end in
  let body :=
    if fw_is framework "fastapi" then
      ["app = FastAPI(title=" ++ quoted "Generated Application" ++ ")" ++ nl;
       "@app.get(" ++ quoted "/" ++ ")" ++ nl ++ "def read_root():" ++ nl
         ++ "    return {" ++ quoted "message" ++ ": " ++ quoted "Application is running" ++ "}" ++ nl;
       "@app.get(" ++ quoted "/health" ++ ")" ++ nl ++ "def health_check():" ++ nl
         ++ "    return {" ++ quoted "status" ++ ": " ++ quoted "healthy" ++ "}" ++ nl]
    else if fw_is framework "flask" then
      ["app = Flask(__name__)" ++ nl;
       "@app.route('/')" ++ nl ++ "def index():" ++ nl
         ++ "    return jsonify({" ++ quoted "message" ++ ": " ++ quoted "Application is running" ++ "})" ++ nl]
    else
      ["def main():";
       "    " ++ dq3 ++ "Main function implementing the requested functionality" ++ dq3]
      +++ (if any_in ["todo"; "task"] ql then
            ["    # Todo list functionality"; "    todos = []";
             "    print(" ++ quoted "Todo list application initialized" ++ ")"]
          else if contains "api" ql then
            ["    # API functionality"; "    print(" ++ quoted "API server would start here" ++ ")"]
          else if contains "database" ql then
            ["    # Database functionality";
             "    print(" ++ quoted "Database operations would be performed here" ++ ")"]
          else
            ["    # Implement: " ++ take 100 query; "    print(" ++ quoted "Application started" ++ ")"])
      +++ [""; "if __name__ == " ++ quoted "__main__" ++ ":"; "    main()"] in
  join nl ([header] +++ import_parts +++ body).

(** [SimpleAgent._generate_js_code] *)
Definition generate_js_code (query requirements : string) (framework : option string) (ext : string)
  : string :=
  let head :=
    if String.eqb ext "ts" then
      ["// Generated by SimpleAgent"; "// Query: " ++ query ++ nl;
       "interface Config {"; "  // Add configuration interface here"; "}" ++ nl]
    else ["// Generated by SimpleAgent"; "// Query: " ++ query ++ nl] in
  let body :=
    if fw_is framework "react" then
      ["import React from 'react';" ++ nl; "function App() {"; "  return (";
       "    <div className=" ++ quoted "App" ++ ">"; "      <h1>Generated Application</h1>";
       "    </div>"; "  );"; "}" ++ nl; "export default App;"]
    else if fw_is framework "express" || contains "api" (lower query) then
      ["const express = require('express');"; "const app = express();" ++ nl;
       "app.use(express.json());" ++ nl; "app.get('/', (req, res) => {";
       "  res.json({ message: 'Application is running' });"; "});" ++ nl;
       "const PORT = process.env.PORT || 3000;"; "app.listen(PORT, () => {";
       "  console.log(`Server running on port ${PORT}`);"; "});"]
    else
      ["// Main application code"; "function main() {"; "  // Implement: " ++ take 80 query;
       "  console.log('Application started');"; "}" ++ nl; "main();"] in
  join nl (head +++ body).

(** [SimpleAgent._generate_dependencies] *)
Definition generate_dependencies (requirements language : string) (framework : option string) : string :=
  let rl := lower requirements in
  let deps :=
    if String.eqb language "python" then
      let d := (if fw_is framework "fastapi" then ["fastapi==0.104.1"; "uvicorn[standard]==0.24.0"]
                else if fw_is framework "flask" then ["flask==3.0.0"] else [])
               +++ (if any_in ["database"; "sql"] rl then ["sqlalchemy==2.0.23"] else [])
               +++ (if any_in ["csv"; "data"] rl then ["pandas==2.1.3"] else []) in
      match d with [] => ["# Add your dependencies here"] | _ => d end
    else [] in
  match deps with [] => "# No specific dependencies identified" | _ => join nl deps end.

(** [SimpleAgent._generate_package_json] *)
Definition generate_package_json (requirements : string) (framework : option string) : string :=
  let deps :=
    (if fw_is framework "express" || contains "api" (lower requirements)
     then [("express", "^4.18.2")] else [])
    +++ (if fw_is framework "react" then [("react", "^18.2.0"); ("react-dom", "^18.2.0")] else []) in
  let deps_str := join ("," ++ nl ++ "    ") (map (fun kv => quoted (fst kv) ++ ": " ++ quoted (snd kv)) deps) in
  join nl
    ["{";
     "  " ++ quoted "name" ++ ": " ++ quoted "generated-project" ++ ",";
     "  " ++ quoted "version" ++ ": " ++ quoted "1.0.0" ++ ",";
     "  " ++ quoted "description" ++ ": " ++ quoted "Generated by SimpleAgent" ++ ",";
     "  " ++ quoted "main" ++ ": " ++ quoted "main.js" ++ ",";
     "  " ++ quoted "scripts" ++ ": {";
     "    " ++ quoted "start" ++ ": " ++ quoted "node main.js";
     "  },";
     "  " ++ quoted "dependencies" ++ ": {";
     "    " ++ (if truthy deps_str then deps_str else "// Add dependencies here");
     "  }";
     "}"].

(** [SimpleAgent._generate_readme] *)
Definition generate_readme (query requirements language : string) (framework : option string)
  : string :=
  let fw := Readme.opt_truthy framework in
  let head :=
    Readme.lines
      ["# Generated Project"; "";
       "## Description";
       "This project was generated by SimpleAgent based on the following request:"; "";
       query; "";
       "## Requirements Identified";
       requirements; "";
       "## Technology Stack";
       "- Language: " ++ language;
       (if fw then "- Framework: " ++ Readme.opt_str framework else ""); "";
       "## Setup Instructions"; "";
       "### Prerequisites";
       "- " ++ capitalize language ++ " installed";
       (if fw then "- " ++ Readme.opt_str framework ++ " framework" else ""); "";
       "### Installation"] in
  let install :=
    if String.eqb language "python" then
      Readme.lines
        ["1. Create a virtual environment (recommended):";
         "   ```bash";
         "   python -m venv venv";
         "   source venv/bin/activate  # On Windows: venv\Scripts\activate";
         "   ```"; "";
         "2. Install dependencies:";
         "   ```bash";
         "   pip install -r requirements.txt";
         "   ```"; "";
         "3. Run the application:";
         "   ```bash";
         "   python main.py";
         "   ```"]
    else if Readme.is_js_ts language then
      Readme.lines
        ["1. Install dependencies:";
         "   ```bash";
         "   npm install";
         "   ```"; "";
         "2. Run the application:";
         "   ```bash";
         "   npm start";
         "   # or";
         "   node main.js";
         "   ```"]
    else "" in
  let tail :=
    Readme.lines
      [""; "## Implementation Notes";
       "This code was generated based on your query. Please review and customize as needed to fully implement all requirements.";
       "";
       "## Next Steps";
       "1. Review the generated code";
       "2. Implement any missing functionality";
       "3. Add tests";
       "4. Customize based on your specific needs"] in
  head ++ install ++ tail.

(** [SimpleAgent._generate_enhanced_fallback]: [existing_result] is received
    and never read. *)
Definition generate_enhanced_fallback (query : string) (a : analysis)
    (existing_result : option codebase) : res codebase :=
  let language := a.(language) in
  let framework := a.(framework) in
  let requirements := extract_requirements query in
  let files :=
    if String.eqb language "python" then
      [("main.py", generate_python_code query requirements framework);
       ("requirements.txt", generate_dependencies requirements language framework)]
    else if Readme.is_js_ts language then
      let ext := if String.eqb language "typescript" then "ts" else "js" in
      [("main." ++ ext, generate_js_code query requirements framework ext);
       ("package.json", generate_package_json requirements framework)]
    else
      [("main." ++ language,
        "// Generated by SimpleAgent" ++ nl ++ "// Query: " ++ query ++ nl
        ++ "// Implement the requested functionality here")] in
  let files := Dict.set "README.md" (generate_readme query requirements language framework) files in
  structure <- build_structure_tree files ;;
  Ok {| cb_files := files; cb_structure := structure |}.

End Fallback.

(** ** The agent: [SimpleAgent.__init__], the provider adapters and
    [SimpleAgent._generate_codebase] *)
Module Agent.

Inductive provider := OpenAI | Anthropic | Gemini.

(** The [settings] fields the agent reads ([app/config.py]). *)
Record settings := {
  OPENAI_API_KEY : option string;
  ANTHROPIC_API_KEY : option string;
  GOOGLE_API_KEY : option string;
  ENABLE_CODE_GENERATION : bool
}.

(** [os.getenv] on the three key names. *)
Record environ := {
  env_openai : option string;
  env_anthropic : option string;
  env_google : option string
}.

(** [a or b] on optional strings. *)
Definition py_or (a b : option string) : option string :=
  if Readme.opt_truthy a then a else b.

Record agent := {
  openai_api_key : option string;
  anthropic_api_key : option string;
  google_api_key : option string;
  use_openai : bool;
  use_anthropic : bool;
  use_gemini : bool
}.

Definition init (s : settings) (e : environ) : agent :=
  let ok := py_or s.(OPENAI_API_KEY) e.(env_openai) in
  let ak := py_or s.(ANTHROPIC_API_KEY) e.(env_anthropic) in
  let gk := py_or s.(GOOGLE_API_KEY) e.(env_google) in
  let uo := Readme.opt_truthy ok in
  let ua := Readme.opt_truthy ak && negb uo in
  let ug := Readme.opt_truthy gk && negb uo && negb ua in
  {| openai_api_key := ok; anthropic_api_key := ak; google_api_key := gk;
     use_openai := uo; use_anthropic := ua; use_gemini := ug |}.

(** What an adapter returns: the parsed codebase dict, or [{"content": ...}]. *)
Inductive response := RCode (cb : codebase) | RText (content : string).

(** The shape shared by [_generate_with_openai], [_generate_with_anthropic] and
    [_generate_with_gemini].  [reply] is what the body of the [try] obtains from
    the provider's client (its import, construction, request and text
    extraction): the reply text, or the exception one of them raises. *)
Definition generate_with (reply : res string) (query : string) (a : analysis) (codebase : bool)
  : res response :=
  let body :=
    content <- reply ;;
    if codebase then
      parsed <- parse_codebase_response content a ;; Ok (RCode parsed)
    else Ok (RText content) in
  match body with
  | Ok r => Ok r
  | Raise e =>
      if is_exception e then
        if codebase then
          cb <- Fallback.generate_enhanced_fallback query a None ;; Ok (RCode cb)
        else Ok (RText ("Error generating response: " ++ exn_str e))
      else Raise e
  end.

Definition error_prefix : string := "Error generating response: ".

(** [if not result.get("files") or self._is_fallback_code(result)] *)
Definition check_result (r : response) (query : string) (a : analysis) : res codebase :=
  match r with
  | RCode cb =>
      match cb.(cb_files) with
      | [] => Fallback.generate_enhanced_fallback query a (Some cb)
      | _ => if Gate.is_fallback_code cb.(cb_files)
             then Fallback.generate_enhanced_fallback query a (Some cb) else Ok cb
      end
  | RText _ => Fallback.generate_enhanced_fallback query a None
  end.

(** [_generate_codebase]: the providers called over the network, and the result. *)
Definition generate_codebase (ag : agent) (replies : provider -> res string)
    (query : string) (a : analysis) : list provider * res codebase :=
  let via p := (r <- generate_with (replies p) query a true ;; check_result r query a) in
  if ag.(use_openai) then ([OpenAI], via OpenAI)
  else if ag.(use_anthropic) then ([Anthropic], via Anthropic)
  else if ag.(use_gemini) then ([Gemini], via Gemini)
  else ([], Fallback.generate_enhanced_fallback query a None).

End Agent.

(** ** The query entry point: [SimpleAgent.process_query] and
    [SimpleAgent._generate_text_response] *)
Module Query.

(** [result.get("content", "Unable to generate response.")]: a text-mode
    adapter result is [{"content": ...}], a code-mode one has no such key. *)
Definition content_or_default (r : Agent.response) : string :=
  match r with
  | Agent.RText c => c
  | Agent.RCode _ => "Unable to generate response."
  end.

Definition no_provider_text (query : string) : string :=
  "Response to query: " ++ query ++ nl ++ nl
  ++ "This query is better suited for an informational response rather than code generation.".

(** [SimpleAgent._generate_text_response] *)
Definition generate_text_response (ag : Agent.agent) (replies : Agent.provider -> res string)
    (query : string) (a : analysis) : res string :=
  let via p := (r <- Agent.generate_with (replies p) query a false ;; Ok (content_or_default r)) in
  if ag.(Agent.use_openai) then via Agent.OpenAI
  else if ag.(Agent.use_anthropic) then via Agent.Anthropic
  else if ag.(Agent.use_gemini) then via Agent.Gemini
  else Ok (no_provider_text query).

(** The dict [process_query] returns: its [type], [content] and [metadata]. *)
Inductive query_result :=
| QCodebase (content : codebase) (language : string) (framework : option string)
    (structure : list (string * node))
| QText (content : string) (reason : string).

(** [SimpleAgent.process_query]; [s] is the module-level [settings]. *)
Definition process_query (s : Agent.settings) (ag : Agent.agent)
    (replies : Agent.provider -> res string) (query : string) : res query_result :=
  let analysis := analyze_query query in
  if analysis.(should_generate_code) && s.(Agent.ENABLE_CODE_GENERATION) then
    codebase <- snd (Agent.generate_codebase ag replies query analysis) ;;
    Ok (QCodebase codebase analysis.(language) analysis.(framework) codebase.(cb_structure))
  else
    text_response <- generate_text_response ag replies query analysis ;;
    Ok (QText text_response analysis.(reason)).

End Query.

(** ** [SimpleAgent._create_basic_structure] *)
Module Basic.

Definition basic_readme : string :=
  "# Project README" ++ nl ++ nl ++ "This project was generated by SimpleAgent.".

Definition create_basic_structure (a : analysis) : list (string * string) :=
  let language := a.(language) in
  if String.eqb language "python" then
    [("main.py", "# Main application file" ++ nl ++ "print('Hello, World!')");
     ("requirements.txt", "# Project dependencies");
     ("README.md", basic_readme)]
  else if Readme.is_js_ts language then
    [("index.js", "// Main application file" ++ nl ++ "console.log('Hello, World!');");
     ("package.json", "{" ++ nl ++ "  " ++ dq ++ "name" ++ dq ++ ": " ++ dq ++ "project" ++ dq
                      ++ "," ++ nl ++ "  " ++ dq ++ "version" ++ dq ++ ": " ++ dq ++ "1.0.0" ++ dq
                      ++ nl ++ "}");
     ("README.md", basic_readme)]
  else
    [("main." ++ language, "// Main application file" ++ nl ++ "// Generated by SimpleAgent");
     ("README.md", basic_readme)].

End Basic.

(** ** Where [OutputManager._generate_codebase_zip] writes a file:
    [temp_dir / file_path] with [temp_dir = Path("outputs") / f"codebase_{timestamp}"],
    POSIX [pathlib] *)
Module PathLib.

Definition slash : ascii := ascii_of_nat 47.

(** [p.lstrip('/')] *)
Fixpoint lstrip_slash (s : string) : string :=
  match s with
  | String c s' => if Ascii.eqb c slash then lstrip_slash s' else s
  | EmptyString => EmptyString
  end.

(** [posixpath.splitroot] (the drive is always empty): root and the rest. *)
Definition splitroot (p : string) : string * string :=
  if negb (startswith p "/") then ("", p)
  else if negb (startswith (drop 1 p) "/") || startswith (drop 2 p) "/"
  then ("/", lstrip_slash p)
  else (take 2 p, drop 2 p).

Record pure_path := { root : string; parts : list string }.

(** [PurePath._parse_path]: [[x for x in rel.split('/') if x and x != '.']] *)
Definition parse_path (p : string) : pure_path :=
  let (r, rel) := splitroot p in
  {| root := r; parts := filter (fun x => truthy x && negb (String.eqb x ".")) (split slash rel) |}.

(** [posixpath.join(a, b)] *)
Definition posix_join (a b : string) : string :=
  if startswith b "/" then b
  else if negb (truthy a) || endswith a "/" then a ++ b
  else a ++ "/" ++ b.

(** [Path("outputs") / f"codebase_{timestamp}" / file_path]: the raw segments
    joined with [posixpath.join], then parsed. *)
Definition zip_entry_path (timestamp file_path : string) : pure_path :=
  parse_path (posix_join (posix_join "outputs" ("codebase_" ++ timestamp)) file_path).

End PathLib.

(** * Properties *)

(** ** Concrete inputs *)

Definition sample_analysis : analysis := analyze_query "create a python app".

(** A single file with ten code lines, short, and mentioning a placeholder. *)
Definition gate_sample_files : list (string * string) :=
  [("main.py", join nl ["placeholder"; "x"; "x"; "x"; "x"; "x"; "x"; "x"; "x"; "x"])].

(** Two fenced blocks with the same language tag and no FILE: marker. *)
Definition two_python_blocks : string :=
  join nl ["```python"; "a = 1"; "```"; "```python"; "b = 2"; "```"].

Definition ten_lines : string := join nl (repeat "x = 1" 10).

Definition openai_agent : Agent.agent :=
  Agent.init {| Agent.OPENAI_API_KEY := Some "sk-test"; Agent.ANTHROPIC_API_KEY := None;
                Agent.GOOGLE_API_KEY := None; Agent.ENABLE_CODE_GENERATION := true |}
             {| Agent.env_openai := None; Agent.env_anthropic := None; Agent.env_google := None |}.

(** The spec's reading of a relative path: not absolute, no [..] segment. *)
Definition is_relative_path (k : string) : bool :=
  negb (startswith k "/") && negb (existsb (String.eqb "..") (segments k)).

Definition codebase_keys (r : res codebase) : list string :=
  match r with Ok cb => Dict.keys cb.(cb_files) | Raise _ => [] end.

(** Whitespace-only strings. *)
Fixpoint all_space (s : string) : bool :=
  match s with
  | EmptyString => true
  | String c s' => is_space c && all_space s'
  end.

(** No whitespace at the front of [s]. *)
Definition head_not_space (s : string) : Prop :=
  match s with EmptyString => True | String c _ => is_space c = false end.

(** Prefixes of '/'-segment lists. *)


Definition proper_seg_prefix (ps qs : list string) : Prop :=
  exists rest, rest <> [] /\ qs = app ps rest.



(** A key that [split('/')] leaves whole. *)
Definition single_segment (k : string) : Prop := segments k = [k].

(** The provider [__init__] enabled, in the order [_generate_codebase] and
    [_generate_text_response] test the flags. *)
Definition active_provider (ag : Agent.agent) : option Agent.provider :=
  if Agent.use_openai ag then Some Agent.OpenAI
  else if Agent.use_anthropic ag then Some Agent.Anthropic
  else if Agent.use_gemini ag then Some Agent.Gemini
  else None.

(** The name [_parse_alternative_format] gives the [i]-th fenced block. *)
Definition alt_block_name (i : nat) (ext : string) : string :=
  match i with
  | O => "main." ++ ext
  | _ => "file_" ++ of_nat i ++ "." ++ ext
  end.

(** Every file name of a files mapping is non-empty. *)
Definition named_files (files : list (string * string)) : Prop :=
  Forall (fun k => truthy k = true) (Dict.keys files).

(** The requirement line [_extract_requirements] falls back on. *)
Definition default_requirement : string :=
  "- Implement the functionality described in the user's request".

(** ** Concrete runs *)

(** C1 (counterexample): a short single file mentioning "placeholder" with ten
    code lines.  The spec's gate calls it fallback-quality (every file is
    placeholder-like and under 200 characters); the code's gate does not (no
    substantial placeholder file stops it early, and 10 lines is not below 10). *)
Lemma gate_spec_counterexample :
  Gate.is_fallback_code gate_sample_files = false /\
  Gate.spec_is_fallback gate_sample_files = true.
Proof. split; vm_compute; reflexivity. Qed.

(** C5 (the code at the failing input): two fenced python blocks with no FILE:
    marker are both named [main.py]; the second overwrites the first and no
    [file.py] is created. *)
Lemma inferred_blocks_both_main :
  Scan.scan two_python_blocks = [("main.py", "b = 2")].
Proof. vm_compute. reflexivity. Qed.

(** C4 (counterexample): a non-blank line inside a fence opened without a
    language tag and with no target is dropped: no README.md is created. *)
Lemma loose_line_in_untagged_fence_dropped :
  Scan.scan ("```" ++ nl ++ "hello") = [].
Proof. vm_compute. reflexivity. Qed.

(** C3 (counterexample): the indentation of the first line of a committed file
    is removed by [.strip()]. *)
Lemma committed_content_loses_indentation :
  Scan.scan ("FILE: a.py" ++ nl ++ "    x = 1") = [("a.py", "x = 1")].
Proof. vm_compute. reflexivity. Qed.

(** C9 (counterexample): through the OpenAI path and the quality gate, a reply
    naming an absolute path and a [..] path hands both keys to the caller. *)
Lemma absolute_and_parent_keys_reach_caller :
  codebase_keys
    (snd (Agent.generate_codebase openai_agent
            (fun _ => Ok ("FILE: /etc/passwd" ++ nl ++ ten_lines ++ nl
                          ++ "FILE: ../escape.py" ++ nl ++ "x"))
            "create an app" sample_analysis))
  = ["/etc/passwd"; "../escape.py"; "README.md"]
  /\ is_relative_path "/etc/passwd" = false
  /\ is_relative_path "../escape.py" = false.
Proof. repeat split; vm_compute; reflexivity. Qed.


(** ** The classifier *)

(** C2: [should_generate_code] is [code_score > text_score and code_score > 0];
    with equal scores (both zero included, as for the empty query) it is false. *)
Theorem should_generate_code_spec : forall query,
  let a := analyze_query query in
  should_generate_code a = (text_score a <? code_score a) && (0 <? code_score a)
  /\ (code_score a = text_score a -> should_generate_code a = false)
  /\ should_generate_code (analyze_query "") = false.
Proof.
  intros query a. subst a. cbn [should_generate_code code_score text_score analyze_query].
  repeat split.
  - intro Heq. rewrite Heq, Nat.ltb_irrefl. reflexivity.
Qed.

(** ** The quality gate *)

Lemma check_files_exists : forall files k,
  Gate.check_files files k =
  if existsb (fun fc => Gate.substantial_placeholder (snd fc)) files then false else k.
Proof.
  induction files as [|[f content] files IH]; intro k; [reflexivity|].
  cbn [Gate.check_files existsb snd]. unfold Gate.substantial_placeholder.
  destruct (existsb _ Gate.fallback_patterns); cbn [andb orb]; [|apply IH].
  destruct (200 <? String.length content); [reflexivity|].
  destruct (existsb _ Gate.decl_keywords); cbn [andb orb]; [|apply IH].
  destruct (5 <? Gate.code_lines content); [reflexivity|apply IH].
Qed.

(** C1 (amended): the gate says fallback-quality exactly when the files mapping
    is empty, or when no file pairs one of the five placeholder patterns with
    real code (over 200 characters, or a declaration keyword and more than five
    code lines) and all files hold fewer than 10 code lines together.  Without
    a placeholder phrase, a single file is fallback-quality exactly when it has
    fewer than 10 code lines (9: yes, 10: no). *)
Theorem is_fallback_code_amended :
  (forall files, Gate.is_fallback_code files = Gate.amended_is_fallback files)
  /\ (forall k content,
        existsb (fun p => contains (lower p) (lower content)) Gate.fallback_patterns = false ->
        Gate.is_fallback_code [(k, content)] = (Gate.code_lines content <? 10)).
Proof.
  split.
  - intros [|fc files]; [reflexivity|].
    unfold Gate.is_fallback_code, Gate.amended_is_fallback.
    rewrite check_files_exists.
    destruct (existsb _ (fc :: files)); reflexivity.
  - intros k content H.
    unfold Gate.is_fallback_code. rewrite check_files_exists.
    cbn [existsb snd]. unfold Gate.substantial_placeholder. rewrite H.
    cbn [andb orb]. unfold Gate.total_code_lines. cbn [fold_right snd].
    rewrite Nat.add_0_r. reflexivity.
Qed.

(** ** Python string lemmas *)

Lemma str_app_assoc : forall a b c : string, (a ++ b) ++ c = a ++ (b ++ c).
Proof. induction a as [|x a IH]; intros; cbn; [reflexivity|now rewrite IH]. Qed.

Lemma str_app_nil_r : forall a : string, a ++ "" = a.
Proof. induction a as [|x a IH]; cbn; [reflexivity|now rewrite IH]. Qed.

Lemma rev_str_spec : forall s acc, rev_str s acc = reverse s ++ acc.
Proof.
  induction s as [|c s IH]; intro acc; [reflexivity|].
  unfold reverse. cbn [rev_str]. rewrite (IH (String c acc)), (IH (String c "")).
  rewrite str_app_assoc. reflexivity.
Qed.

Lemma reverse_cons : forall c s, reverse (String c s) = reverse s ++ String c "".
Proof. intros. unfold reverse at 1. cbn [rev_str]. apply rev_str_spec. Qed.

Lemma reverse_app : forall a b, reverse (a ++ b) = reverse b ++ reverse a.
Proof.
  induction a as [|c a IH]; intro b; cbn [append].
  - unfold reverse at 3. cbn. now rewrite str_app_nil_r.
  - rewrite !reverse_cons, IH, str_app_assoc. reflexivity.
Qed.

Lemma reverse_involutive : forall s, reverse (reverse s) = s.
Proof.
  induction s as [|c s IH]; [reflexivity|].
  rewrite reverse_cons, reverse_app, IH. reflexivity.
Qed.

Lemma all_space_app : forall a b, all_space (a ++ b) = all_space a && all_space b.
Proof. induction a as [|c a IH]; intro b; cbn; [reflexivity|now rewrite IH, andb_assoc]. Qed.

Lemma all_space_reverse : forall s, all_space (reverse s) = all_space s.
Proof.
  induction s as [|c s IH]; [reflexivity|].
  rewrite reverse_cons, all_space_app, IH. cbn. rewrite andb_true_r, andb_comm. reflexivity.
Qed.

Lemma lstrip_split : forall s, exists pre, s = pre ++ lstrip s /\ all_space pre = true.
Proof.
  induction s as [|c s IH]; [exists ""; auto|].
  cbn [lstrip]. destruct (is_space c) eqn:E.
  - destruct IH as [pre [Hs Hp]]. exists (String c pre). cbn. rewrite E, Hp, <- Hs. auto.
  - exists "". auto.
Qed.

Lemma lstrip_head : forall s, head_not_space (lstrip s).
Proof.
  induction s as [|c s IH]; cbn; [exact I|].
  destruct (is_space c) eqn:E; [exact IH|exact E].
Qed.

Lemma lstrip_app_space : forall a b, all_space a = true -> lstrip (a ++ b) = lstrip b.
Proof.
  induction a as [|c a IH]; intros b H; [reflexivity|].
  cbn in H |- *. apply andb_prop in H as [H1 H2]. rewrite H1. auto.
Qed.

Lemma lstrip_app_nonspace : forall a b, all_space a = false -> lstrip (a ++ b) = lstrip a ++ b.
Proof.
  induction a as [|c a IH]; intros b H; [discriminate|].
  cbn in H |- *. destruct (is_space c); cbn in H; auto.
Qed.

Lemma rstrip_cons_nonspace : forall c t, is_space c = false ->
  exists u, rstrip (String c t) = String c u.
Proof.
  intros c t Hc. unfold rstrip. rewrite reverse_cons.
  destruct (all_space (reverse t)) eqn:E.
  - rewrite lstrip_app_space by exact E. cbn. rewrite Hc. exists "". reflexivity.
  - rewrite lstrip_app_nonspace by exact E. rewrite reverse_app. cbn.
    exists (reverse (lstrip (reverse t))). reflexivity.
Qed.

(** [.strip()] removes whitespace at both ends and nothing else. *)
Lemma strip_infix : forall s, exists pre suf,
  s = pre ++ strip s ++ suf /\ all_space pre = true /\ all_space suf = true
  /\ head_not_space (strip s) /\ head_not_space (reverse (strip s)).
Proof.
  intro s. destruct (lstrip_split s) as [pre [Hs Hp]].
  set (t := lstrip s) in *.
  destruct (lstrip_split (reverse t)) as [pre' [Ht Hp']].
  exists pre, (reverse pre'). unfold strip, rstrip. fold t.
  repeat split.
  - rewrite Hs at 1. f_equal.
    rewrite <- (reverse_involutive t) at 1. rewrite Ht at 1.
    rewrite reverse_app. reflexivity.
  - exact Hp.
  - rewrite all_space_reverse. exact Hp'.
  - pose proof (lstrip_head s) as Hh. fold t in Hh.
    destruct t as [|c t']; [exact I|].
    destruct (rstrip_cons_nonspace c t' Hh) as [u Hu].
    unfold rstrip in Hu. rewrite Hu. exact Hh.
  - rewrite reverse_involutive. apply lstrip_head.
Qed.

(** ** The scan's commits *)

(** One step of the scan leaves the files alone, commits the current target
    with its stripped joined lines, or writes the prose README.md. *)
Lemma step_files_cases : forall st line,
  Scan.files (Scan.step st line) = Scan.files st
  \/ (Scan.has_file (Scan.current_file st) = true
      /\ Scan.files (Scan.step st line) = Scan.commit st)
  \/ (Scan.has_file (Scan.current_file st) = false
      /\ exists v, Scan.files (Scan.step st line) = Dict.set "README.md" v (Scan.files st)).
Proof.
  intros st line. unfold Scan.step.
  destruct (startswith (strip line) "FILE:"); cbn [Scan.files].
  { destruct (Scan.has_file (Scan.current_file st)) eqn:E; auto. }
  destruct (startswith (strip line) "```").
  { destruct (negb (Scan.in_code_block st)); cbn [Scan.files]; [auto|].
    destruct (Scan.has_file (Scan.current_file st)) eqn:E; cbn [Scan.files]; [|auto].
    destruct (Scan.current_content st); auto. }
  destruct (Scan.has_file (Scan.current_file st)) eqn:E; cbn [Scan.files]; [auto|].
  destruct (truthy (strip line) && negb (startswith line "```") && negb (Scan.in_code_block st));
    [|auto].
  destruct (negb (existsb Scan.readme_like (Dict.keys (Scan.files st)))); [|auto].
  destruct (Dict.get "README.md" (Scan.files st)); cbn [Scan.files]; eauto 6.
Qed.

(** C3 (amended): every file the scan commits from a FILE: or fence target
    holds ['\n'.join(lines).strip()]: the accumulated lines joined, with the
    whitespace at both ends of the whole text removed (the indentation of the
    first line and trailing blanks of the last line included) and nothing
    else changed. *)
Theorem committed_content_stripped :
  (forall st line,
     Scan.files (Scan.step st line) = Scan.files st
     \/ (Scan.has_file (Scan.current_file st) = true
         /\ Scan.files (Scan.step st line) = Scan.commit st)
     \/ (Scan.has_file (Scan.current_file st) = false
         /\ exists v, Scan.files (Scan.step st line) = Dict.set "README.md" v (Scan.files st)))
  /\ (forall st, Scan.finish st = Scan.files st
                 \/ (Scan.has_file (Scan.current_file st) = true /\ Scan.finish st = Scan.commit st))
  /\ (forall st f, Scan.current_file st = Some f ->
        Scan.commit st = Dict.set f (strip (join nl (Scan.current_content st))) (Scan.files st))
  /\ (forall s, exists pre suf,
        s = pre ++ strip s ++ suf /\ all_space pre = true /\ all_space suf = true
        /\ head_not_space (strip s) /\ head_not_space (reverse (strip s))).
Proof.
  split; [exact step_files_cases|].
  split.
  { intro st. unfold Scan.finish.
    destruct (Scan.has_file (Scan.current_file st)) eqn:E; cbn [andb]; [|auto].
    destruct (Scan.current_content st); auto. }
  split; [|exact strip_infix].
  intros st f Hf. unfold Scan.commit, Scan.committed. rewrite Hf. reflexivity.
Qed.

(** ** Loose prose lines *)

Lemma prefix_app_ex : forall s1 s2, prefix s1 s2 = true -> exists r, s2 = s1 ++ r.
Proof.
  induction s1 as [|x s1 IH]; intros s2 H; [exists s2; reflexivity|].
  destruct s2 as [|y s2]; [discriminate|].
  cbn in H. destruct (ascii_dec x y) as [<-|]; [|discriminate].
  destruct (IH s2 H) as [r ->]. exists r. reflexivity.
Qed.

Lemma prefix_app : forall s1 r, prefix s1 (s1 ++ r) = true.
Proof.
  induction s1 as [|x s1 IH]; intro r; [destruct r; reflexivity|].
  cbn. destruct (ascii_dec x x) as [_|n]; [apply IH|congruence].
Qed.

Lemma rstrip_app_nonspace : forall a b, all_space b = false -> rstrip (a ++ b) = a ++ rstrip b.
Proof.
  intros a b H. unfold rstrip. rewrite reverse_app, lstrip_app_nonspace.
  - rewrite reverse_app, reverse_involutive. reflexivity.
  - rewrite all_space_reverse. exact H.
Qed.

Lemma rstrip_app_space : forall a b, all_space b = true -> rstrip (a ++ b) = rstrip a.
Proof.
  intros a b H. unfold rstrip. rewrite reverse_app, lstrip_app_space; [reflexivity|].
  rewrite all_space_reverse. exact H.
Qed.

(** A line starting with a fence still starts with it once stripped, so the
    scan's [not line.startswith('```')] test never decides anything. *)
Lemma fence_prefix_strip : forall line,
  startswith line "```" = true -> startswith (strip line) "```" = true.
Proof.
  intros line H. unfold startswith in *.
  destruct (prefix_app_ex _ _ H) as [r ->].
  unfold strip. change (lstrip ("```" ++ r)) with ("```" ++ r).
  destruct (all_space r) eqn:E.
  - rewrite rstrip_app_space by exact E. reflexivity.
  - rewrite rstrip_app_nonspace by exact E. apply prefix_app.
Qed.

Lemma get_in_keys : forall {V} k (d : list (string * V)) v,
  Dict.get k d = Some v -> In k (Dict.keys d).
Proof.
  intros V k d v. induction d as [|[k' v'] d IH]; cbn; [discriminate|].
  destruct (String.eqb k k') eqn:E; intro H.
  - left. symmetry. apply String.eqb_eq. exact E.
  - right. auto.
Qed.

(** C4 (amended): while no file target is set, a non-blank line that is
    neither a FILE: marker nor a fence creates README.md holding that line
    when it is outside a code block and no stored file name starts with
    "README" or ends with ".md"; it is dropped inside a code block, and when a
    file other than README.md whose name starts with "README" or ends with
    ".md" is stored. *)
Theorem loose_prose_to_readme : forall st line,
  Scan.has_file (Scan.current_file st) = false ->
  startswith (strip line) "FILE:" = false ->
  startswith (strip line) "```" = false ->
  truthy (strip line) = true ->
  (Scan.in_code_block st = true -> Scan.files (Scan.step st line) = Scan.files st)
  /\ (Scan.in_code_block st = false ->
      existsb Scan.readme_like (Dict.keys (Scan.files st)) = false ->
      Scan.files (Scan.step st line) = Dict.set "README.md" line (Scan.files st))
  /\ (forall k, In k (Dict.keys (Scan.files st)) -> k <> "README.md" ->
      Scan.readme_like k = true -> Scan.files (Scan.step st line) = Scan.files st).
Proof.
  intros st line Hcf Hfile Hfence Hblank.
  assert (Hraw : startswith line "```" = false).
  { destruct (startswith line "```") eqn:E; [|reflexivity].
    rewrite (fence_prefix_strip _ E) in Hfence. discriminate. }
  unfold Scan.step. rewrite Hfile, Hfence, Hcf, Hblank, Hraw. cbn [andb negb].
  repeat split.
  - intro Hin. rewrite Hin. reflexivity.
  - intros Hin Hno. rewrite Hin, Hno. cbn [andb negb].
    destruct (Dict.get "README.md" (Scan.files st)) eqn:G; [|reflexivity].
    apply get_in_keys in G.
    assert (existsb Scan.readme_like (Dict.keys (Scan.files st)) = true) as Hyes.
    { apply existsb_exists. exists "README.md". split; [exact G|reflexivity]. }
    congruence.
  - intros k Hk _ Hlike.
    assert (existsb Scan.readme_like (Dict.keys (Scan.files st)) = true) as Hyes.
    { apply existsb_exists. eauto. }
    rewrite Hyes. cbn [negb].
    destruct (Scan.in_code_block st); reflexivity.
Qed.

Lemma loose_prose_to_readme_witness :
  Scan.files (Scan.step Scan.init "hello") = [("README.md", "hello")].
Proof.
  apply (proj1 (proj2 (loose_prose_to_readme Scan.init "hello"
                         eq_refl eq_refl eq_refl eq_refl)) eq_refl eq_refl).
Defined.

(** ** The structure tree *)







Lemma get_set_same : forall {V} k (v : V) d, Dict.get k (Dict.set k v d) = Some v.
Proof.
  intros V k v d. induction d as [|[k' v'] d IH]; cbn.
  - rewrite String.eqb_refl. reflexivity.
  - destruct (String.eqb k k') eqn:E; cbn; rewrite ?E; [reflexivity|].
    exact IH.
Qed.



Lemma lookup_path_empty : forall qs, lookup_path qs [] = None.
Proof. intros [|x [|y qs]]; reflexivity. Qed.


Lemma insert_path_cons2 : forall p q r d,
  insert_path (p :: q :: r) d =
  match Dict.get p d with
  | None => sub <- insert_path (q :: r) [] ;; Ok (Dict.set p (NDir sub) d)
  | Some (NDir sub) => sub' <- insert_path (q :: r) sub ;; Ok (Dict.set p (NDir sub') d)
  | Some NFile => Raise (on_leaf (q :: r))
  end.
Proof. reflexivity. Qed.

Lemma on_leaf_type_error : forall rest, exists msg, on_leaf rest = TypeError msg.
Proof.
  intros [|q [|q' r]]; [eexists; reflexivity|eexists; reflexivity|].
  cbn [on_leaf]. destruct (contains q "file"); eexists; reflexivity.
Qed.

Lemma insert_path_raise_only : forall ps d e,
  insert_path ps d = Raise e -> exists msg, e = TypeError msg.
Proof.
  induction ps as [|p ps IH]; intros d e H; [discriminate|].
  destruct ps as [|q r]; [discriminate|].
  rewrite insert_path_cons2 in H.
  destruct (Dict.get p d) as [[|sub]|].
  - injection H as <-. exact (on_leaf_type_error (q :: r)).
  - destruct (insert_path (q :: r) sub) eqn:E; cbn in H; [discriminate|].
    injection H as <-. eauto.
  - destruct (insert_path (q :: r) []) eqn:E; cbn in H; [discriminate|].
    injection H as <-. eauto.
Qed.

Lemma lookup_path_cons2 : forall x y qs d,
  lookup_path (x :: y :: qs) d =
  match Dict.get x d with Some (NDir sub) => lookup_path (y :: qs) sub | _ => None end.
Proof. reflexivity. Qed.


(** Raising means such a leaf was there. *)
Lemma insert_path_raise_leaf : forall ps d e,
  insert_path ps d = Raise e ->
  exists pre, pre <> [] /\ proper_seg_prefix pre ps /\ lookup_path pre d = Some NFile.
Proof.
  induction ps as [|p ps IH]; intros d e H; [discriminate|].
  destruct ps as [|q r]; [discriminate|].
  rewrite insert_path_cons2 in H.
  destruct (Dict.get p d) as [[|sub]|] eqn:G.
  - exists [p]. split; [discriminate|split; [|exact G]].
    exists (q :: r). split; [discriminate|reflexivity].
  - destruct (insert_path (q :: r) sub) eqn:E; cbn in H; [discriminate|].
    destruct (IH sub e0 E) as [pre [Hne [[rest [Hr Hps]] Hl]]].
    exists (p :: pre). split; [discriminate|split].
    + exists rest. split; [exact Hr|rewrite Hps; reflexivity].
    + destruct pre as [|y pre']; [congruence|]. rewrite lookup_path_cons2, G. exact Hl.
  - destruct (insert_path (q :: r) []) eqn:E; cbn in H; [discriminate|].
    destruct (IH [] e0 E) as [pre [_ [_ Hl]]]. rewrite lookup_path_empty in Hl. discriminate.
Qed.










Lemma build_from_raise_only : forall ks d e,
  build_from ks d = Raise e -> exists msg, e = TypeError msg.
Proof.
  induction ks as [|k ks IH]; intros d e H; [discriminate|].
  cbn [build_from] in H. destruct (insert_path (segments k) d) eqn:E; cbn [bind] in H.
  - exact (IH _ _ H).
  - injection H as <-. exact (insert_path_raise_only _ _ _ E).
Qed.


Lemma insert_path_empty_ok : forall ps, exists d, insert_path ps [] = Ok d.
Proof.
  intro ps. destruct (insert_path ps []) as [d|e] eqn:E; [exists d; reflexivity|].
  exfalso. destruct (insert_path_raise_leaf _ _ _ E) as [pre [_ [_ Hl]]].
  rewrite lookup_path_empty in Hl. discriminate.
Qed.




(** ** The fallback synthesizer *)

Lemma build_from_singles : forall ks d,
  Forall single_segment ks -> exists t, build_from ks d = Ok t.
Proof.
  induction ks as [|k ks IH]; intros d H; [exists d; reflexivity|].
  inversion H as [|? ? Hk Hks]; subst.
  cbn [build_from]. unfold single_segment in Hk. rewrite Hk. cbn [insert_path bind].
  apply IH, Hks.
Qed.

Lemma keys_set_cons : forall {V} k (v : V) k0 v0 d,
  exists tl, Dict.keys (Dict.set k v ((k0, v0) :: d)) = k0 :: tl /\
    forall P : string -> Prop, Forall P (Dict.keys d) -> P k -> Forall P tl.
Proof.
  intros V k v k0 v0 d. cbn [Dict.set].
  destruct (String.eqb k k0).
  - exists (Dict.keys d). split; [reflexivity|]. intros P H _. exact H.
  - exists (Dict.keys (Dict.set k v d)). split; [reflexivity|].
    intros P. induction d as [|[k1 v1] d IH]; intros H Hk; cbn.
    + constructor; [exact Hk|constructor].
    + inversion H as [|? ? H1 H2]; subst.
      destruct (String.eqb k k1); cbn; constructor; [exact H1|exact H2|exact H1|].
      apply IH; assumption.
Qed.

(** The fallback's files: a main file whose key may hold any text, then
    single-segment keys, then README.md; its tree always builds. *)
Lemma build_set_readme_ok : forall k0 (v0 : string) rest v,
  Forall single_segment (Dict.keys rest) ->
  exists t, build_structure_tree (Dict.set "README.md" v ((k0, v0) :: rest)) = Ok t.
Proof.
  intros k0 v0 rest v H.
  destruct (keys_set_cons "README.md" v k0 v0 rest) as [tl [Hk Htl]].
  unfold build_structure_tree. rewrite Hk. cbn [build_from].
  destruct (insert_path_empty_ok (segments k0)) as [d E]. rewrite E. cbn [bind].
  apply build_from_singles, Htl; [exact H|reflexivity].
Qed.

Lemma enhanced_fallback_ok : forall query a existing_result,
  exists cb, Fallback.generate_enhanced_fallback query a existing_result = Ok cb.
Proof.
  intros query a existing_result. unfold Fallback.generate_enhanced_fallback. cbv zeta.
  destruct (String.eqb (language a) "python"); [|destruct (Readme.is_js_ts (language a))];
  match goal with
  | |- context [build_structure_tree (Dict.set "README.md" ?v ((?k0, ?v0) :: ?rest))] =>
      destruct (build_set_readme_ok k0 v0 rest v) as [t Ht]; [|rewrite Ht; cbn [bind]; eexists; reflexivity]
  end;
  cbn [Dict.keys map fst]; repeat constructor.
Qed.

(** C8. The fallback synthesizer is a function of the query and the
    analysis alone (the reply it is handed is ignored, and it reads no clock
    and calls no provider), so two runs on the same pair give the same files
    and structure; and it always succeeds. *)
Theorem enhanced_fallback_deterministic_total : forall query a r1 r2,
  Fallback.generate_enhanced_fallback query a r1 = Fallback.generate_enhanced_fallback query a r2 /\
  exists cb, Fallback.generate_enhanced_fallback query a r1 = Ok cb.
Proof.
  intros query a r1 r2. split; [reflexivity|apply enhanced_fallback_ok].
Qed.

(** ** The provider adapters and the provider selection *)

(** C6. An adapter lets no [Exception] out. When the provider call raises
    one (network, authentication, a reply whose text cannot be read), a prose
    request answers with the error text after
    ["Error generating response: "], and a code request answers with the
    fallback synthesizer's result; so does a code request whose reply the
    parser fails on. The only exceptions that leave an adapter are those
    outside [Exception] (interrupts, exit, cancellation). *)
Theorem adapter_catches_provider_errors : forall reply query a,
  (forall e, reply = Raise e -> is_exception e = true ->
     Agent.generate_with reply query a false =
       Ok (Agent.RText (Agent.error_prefix ++ exn_str e))) /\
  (forall e,
     (reply = Raise e \/
      exists content, reply = Ok content /\ parse_codebase_response content a = Raise e) ->
     is_exception e = true ->
     exists cb, Fallback.generate_enhanced_fallback query a None = Ok cb /\
                Agent.generate_with reply query a true = Ok (Agent.RCode cb)) /\
  (forall codebase e, Agent.generate_with reply query a codebase = Raise e ->
     is_exception e = false).
Proof.
  intros reply query a. split; [|split].
  - intros e -> He. unfold Agent.generate_with. cbn [bind]. rewrite He. reflexivity.
  - intros e Hr He. destruct (enhanced_fallback_ok query a None) as [cb Hcb].
    exists cb. split; [exact Hcb|].
    unfold Agent.generate_with.
    destruct Hr as [->|[content [-> Hp]]]; cbn [bind]; [|rewrite Hp; cbn [bind]];
      rewrite He, Hcb; reflexivity.
  - intros codebase e H. unfold Agent.generate_with in H. cbv zeta in H.
    match type of H with
    | context [match ?b with Ok _ => _ | Raise _ => _ end] => destruct b as [r|e0]
    end; [discriminate|].
    destruct (is_exception e0) eqn:He0.
    + destruct codebase; [|discriminate].
      destruct (enhanced_fallback_ok query a None) as [cb Hcb].
      rewrite Hcb in H. discriminate.
    + injection H as <-. exact He0.
Qed.

Lemma adapter_catches_provider_errors_witness :
  Agent.generate_with (Raise (ConnectionError "timeout")) "hello" sample_analysis false =
    Ok (Agent.RText (Agent.error_prefix ++ exn_str (ConnectionError "timeout"))).
Proof.
  exact (proj1 (adapter_catches_provider_errors (Raise (ConnectionError "timeout")) "hello"
                  sample_analysis) (ConnectionError "timeout") eq_refl eq_refl).
Defined.

(** C7. [__init__] selects at most one provider, by priority: OpenAI when
    its key is set, else Anthropic when its key is set, else Gemini when its
    key is set. With no key set, [_generate_codebase] calls no provider and
    returns the fallback synthesizer's result. *)
Theorem provider_priority_init : forall s e replies query a,
  let ag := Agent.init s e in
  let uo := Agent.use_openai ag in
  let ua := Agent.use_anthropic ag in
  let ug := Agent.use_gemini ag in
  let ko := Readme.opt_truthy (Agent.openai_api_key ag) in
  let ka := Readme.opt_truthy (Agent.anthropic_api_key ag) in
  let kg := Readme.opt_truthy (Agent.google_api_key ag) in
  uo = ko /\ ua = negb ko && ka /\ ug = negb ko && negb ka && kg /\
  negb (uo && ua) && negb (uo && ug) && negb (ua && ug) = true /\
  (ko = false -> ka = false -> kg = false ->
     Agent.generate_codebase ag replies query a =
       ([], Fallback.generate_enhanced_fallback query a None)).
Proof.
  intros s e replies query a. cbv zeta. unfold Agent.init.
  cbn [Agent.use_openai Agent.use_anthropic Agent.use_gemini
       Agent.openai_api_key Agent.anthropic_api_key Agent.google_api_key].
  destruct (Readme.opt_truthy (Agent.py_or (Agent.OPENAI_API_KEY s) (Agent.env_openai e)));
  destruct (Readme.opt_truthy (Agent.py_or (Agent.ANTHROPIC_API_KEY s) (Agent.env_anthropic e)));
  destruct (Readme.opt_truthy (Agent.py_or (Agent.GOOGLE_API_KEY s) (Agent.env_google e)));
  (split; [reflexivity|split; [reflexivity|split; [reflexivity|split; [reflexivity|]]]]);
  intros H1 H2 H3; first [discriminate | reflexivity].
Qed.

(** ** File names taken from FILE: markers *)

Lemma split_acc_free : forall sep s cur,
  contains (String sep "") s = false -> split_acc sep s cur = [reverse cur ++ s].
Proof.
  intros sep s. induction s as [|c s IH]; intros cur H; cbn [split_acc].
  - rewrite str_app_nil_r. reflexivity.
  - cbn [contains prefix] in H. apply orb_false_elim in H as [H1 H2].
    destruct (ascii_dec sep c) as [->|Hne]; [destruct s; discriminate|].
    destruct (Ascii.eqb_spec c sep) as [Heq|_]; [congruence|].
    rewrite IH by exact H2. rewrite reverse_cons, str_app_assoc. reflexivity.
Qed.

Lemma split_acc_app : forall sep s1 s2 cur,
  contains (String sep "") s1 = false ->
  split_acc sep (s1 ++ String sep s2) cur = (reverse cur ++ s1) :: split_acc sep s2 "".
Proof.
  intros sep s1. induction s1 as [|c s1 IH]; intros s2 cur H; cbn [append split_acc].
  - rewrite Ascii.eqb_refl, str_app_nil_r. reflexivity.
  - cbn [contains prefix] in H. apply orb_false_elim in H as [H1 H2].
    destruct (ascii_dec sep c) as [->|Hne]; [destruct s1; discriminate|].
    destruct (Ascii.eqb_spec c sep) as [Heq|_]; [congruence|].
    rewrite IH by exact H2. rewrite reverse_cons, str_app_assoc. reflexivity.
Qed.

Lemma keys_set_incl : forall {V} k (v : V) d k',
  In k' (Dict.keys d) -> In k' (Dict.keys (Dict.set k v d)).
Proof.
  intros V k v d k'. induction d as [|[k0 v0] d IH]; intro H; [destruct H|].
  cbn [Dict.set]. destruct (String.eqb k k0); cbn in H |- *; destruct H as [H|H]; auto.
Qed.

Lemma keys_set_same : forall {V} k (v : V) d, In k (Dict.keys (Dict.set k v d)).
Proof.
  intros V k v d. induction d as [|[k0 v0] d IH]; cbn; [left; reflexivity|].
  destruct (String.eqb_spec k k0) as [->|_]; cbn; [left; reflexivity|right; exact IH].
Qed.

Lemma commit_keys_mono : forall st k,
  In k (Dict.keys st.(Scan.files)) -> In k (Dict.keys (Scan.commit st)).
Proof.
  intros st k H. unfold Scan.commit.
  destruct (Scan.current_file st); [apply keys_set_incl|]; exact H.
Qed.

Lemma commit_current : forall st n,
  st.(Scan.current_file) = Some n -> In n (Dict.keys (Scan.commit st)).
Proof. intros st n H. unfold Scan.commit. rewrite H. apply keys_set_same. Qed.

(** A key, once stored, stays: every branch of the loop body keeps or sets
    entries of [files], none removes one. *)
Lemma step_keys_mono : forall st line k,
  In k (Dict.keys st.(Scan.files)) -> In k (Dict.keys (Scan.step st line).(Scan.files)).
Proof.
  intros st line k H. unfold Scan.step.
  destruct (startswith (strip line) "FILE:"); cbn [Scan.files].
  { destruct (Scan.has_file (Scan.current_file st)); [apply commit_keys_mono|]; exact H. }
  destruct (startswith (strip line) "```").
  { destruct (negb (Scan.in_code_block st)); cbn [Scan.files]; [exact H|].
    destruct (Scan.has_file (Scan.current_file st)); cbn [Scan.files]; [|exact H].
    destruct (Scan.current_content st); [exact H|apply commit_keys_mono, H]. }
  destruct (Scan.has_file (Scan.current_file st)); cbn [Scan.files]; [exact H|].
  destruct (truthy (strip line) && negb (startswith line "```") && negb (Scan.in_code_block st));
    [|exact H].
  destruct (negb (existsb Scan.readme_like (Dict.keys (Scan.files st)))); [|exact H].
  destruct (Dict.get "README.md" (Scan.files st)); cbn [Scan.files]; apply keys_set_incl, H.
Qed.

(** The name [n] of a marker line is stored, or is still the current file
    with some content gathered. *)
Definition name_pending (n : string) (st : Scan.state) : Prop :=
  In n (Dict.keys st.(Scan.files)) \/
  (st.(Scan.current_file) = Some n /\ st.(Scan.current_content) <> []).

Lemma step_name_pending : forall n st line,
  truthy n = true -> name_pending n st -> name_pending n (Scan.step st line).
Proof.
  intros n st line Ht [H|[Hc Hne]]; [left; apply step_keys_mono, H|].
  assert (Hh : Scan.has_file (Scan.current_file st) = true)
    by (rewrite Hc; exact Ht).
  unfold Scan.step.
  destruct (startswith (strip line) "FILE:").
  { left. cbn [Scan.files]. rewrite Hh. apply commit_current, Hc. }
  destruct (startswith (strip line) "```").
  - destruct (negb (Scan.in_code_block st)).
    + right. cbn [Scan.current_file Scan.current_content]. rewrite Hh.
      destruct (Scan.current_content st) as [|c cs]; [congruence|].
      cbn [andb negb]. split; [exact Hc|exact Hne].
    + left. rewrite Hh. cbn [Scan.files].
      destruct (Scan.current_content st) as [|c cs]; [congruence|].
      apply commit_current, Hc.
  - rewrite Hh. right. cbn [Scan.current_file Scan.current_content].
    split; [exact Hc|]. intro E. apply app_eq_nil in E. destruct E as [_ E]. discriminate.
Qed.

Lemma fold_name_pending : forall n lines st,
  truthy n = true -> name_pending n st -> name_pending n (fold_left Scan.step lines st).
Proof.
  intros n lines. induction lines as [|l lines IH]; intros st Ht H; [exact H|].
  cbn [fold_left]. apply IH; [exact Ht|]. apply step_name_pending; assumption.
Qed.

Lemma finish_name_pending : forall n st,
  truthy n = true -> name_pending n st -> In n (Dict.keys (Scan.finish st)).
Proof.
  intros n st Ht [H|[Hc Hne]]; unfold Scan.finish.
  - destruct (_ && _); [apply commit_keys_mono|]; exact H.
  - rewrite Hc. cbn [Scan.has_file]. rewrite Ht.
    destruct (Scan.current_content st) as [|c cs]; [congruence|].
    apply commit_current, Hc.
Qed.

(** From any state, a marker line followed by a content line leaves the
    marker's name pending. *)
Lemma step_marker_line : forall st m l,
  startswith (strip m) "FILE:" = true -> truthy (strip (replace "FILE:" "" m)) = true ->
  startswith (strip l) "FILE:" = false -> startswith (strip l) "```" = false ->
  name_pending (strip (replace "FILE:" "" m)) (Scan.step (Scan.step st m) l).
Proof.
  intros st m l Hm Ht Hf Hb. unfold name_pending. right.
  assert (Hc : Scan.current_file (Scan.step st m) = Some (strip (replace "FILE:" "" m)))
    by (unfold Scan.step; rewrite Hm; reflexivity).
  set (st1 := Scan.step st m) in *.
  unfold Scan.step. rewrite Hf, Hb, Hc. cbn [Scan.has_file]. rewrite Ht.
  cbn [Scan.current_file Scan.current_content].
  split; [reflexivity|].
  intro E. apply app_eq_nil in E. destruct E as [_ E]. discriminate.
Qed.

(** C9 (amended). Nothing checks file names: for every FILE: marker line of
    a reply, at any position, the line with "FILE:" removed and then
    stripped is stored as it stands as a key of the scan's files (as soon as
    a content line follows the marker), so an absolute name or one with [..]
    segments becomes a key; the parser keeps every key the scan produced;
    and whichever provider is active, when the quality gate accepts the
    files [_generate_codebase] hands that mapping to the caller unchanged. *)
Theorem file_keys_unsanitised :
  (forall content pre m l post,
     split_lines content = app pre (m :: l :: post) ->
     startswith (strip m) "FILE:" = true -> truthy (strip (replace "FILE:" "" m)) = true ->
     startswith (strip l) "FILE:" = false -> startswith (strip l) "```" = false ->
     In (strip (replace "FILE:" "" m)) (Dict.keys (Scan.scan content))) /\
  (forall content a cb k,
     parse_codebase_response content a = Ok cb ->
     In k (Dict.keys (Scan.scan content)) -> In k (Dict.keys (cb_files cb))) /\
  (forall ag replies query a p content cb,
     active_provider ag = Some p -> replies p = Ok content ->
     parse_codebase_response content a = Ok cb ->
     cb_files cb <> [] -> Gate.is_fallback_code (cb_files cb) = false ->
     Agent.generate_codebase ag replies query a = ([p], Ok cb)).
Proof.
  split; [|split].
  - intros content pre m l post Hs Hm Ht Hf Hb.
    unfold Scan.scan, Scan.scan_lines. rewrite Hs, fold_left_app.
    apply finish_name_pending; [exact Ht|].
    cbn [fold_left]. apply fold_name_pending; [exact Ht|].
    apply step_marker_line; assumption.
  - intros content a cb k H Hk. unfold parse_codebase_response in H. cbv zeta in H.
    destruct (Scan.scan content) as [|f fs] eqn:E; [destruct Hk|].
    destruct (build_structure_tree _) as [t|e] in H; cbn [bind] in H; [|discriminate].
    injection H as <-. cbn [cb_files].
    destruct (readme_exists (f :: fs)); [exact Hk|].
    exact (keys_set_incl "README.md" _ (f :: fs) k Hk).
  - intros ag replies query a p content cb Hap Hr Hp Hne Hg.
    assert (Hvia : (r <- Agent.generate_with (replies p) query a true ;;
                    Agent.check_result r query a) = Ok cb).
    { unfold Agent.generate_with. rewrite Hr. cbn [bind]. rewrite Hp. cbn [bind].
      unfold Agent.check_result.
      destruct (cb_files cb) as [|f fs] eqn:F; [congruence|].
      rewrite Hg. reflexivity. }
    unfold active_provider in Hap. unfold Agent.generate_codebase. cbv zeta.
    destruct (Agent.use_openai ag); [injection Hap as <-; rewrite Hvia; reflexivity|].
    destruct (Agent.use_anthropic ag); [injection Hap as <-; rewrite Hvia; reflexivity|].
    destruct (Agent.use_gemini ag); [injection Hap as <-; rewrite Hvia; reflexivity|].
    discriminate.
Qed.

Lemma file_keys_unsanitised_witness :
  split_lines ("FILE: ../escape.py" ++ nl ++ "x = 1") = ["FILE: ../escape.py"; "x = 1"] /\
  In "../escape.py" (Dict.keys (Scan.scan ("FILE: ../escape.py" ++ nl ++ "x = 1"))).
Proof.
  split; [vm_compute; reflexivity|].
  exact (proj1 file_keys_unsanitised ("FILE: ../escape.py" ++ nl ++ "x = 1")
           [] "FILE: ../escape.py" "x = 1" [] eq_refl eq_refl eq_refl eq_refl eq_refl).
Defined.

(** ** The query entry point *)

Lemma parse_raise_only : forall content a e,
  parse_codebase_response content a = Raise e -> exists msg, e = TypeError msg.
Proof.
  intros content a e H. unfold parse_codebase_response in H. cbv zeta in H.
  destruct (match Scan.scan content with [] => Alt.parse_alternative_format content a | _ => _ end)
    as [|f fs]; [discriminate|].
  match type of H with context [build_structure_tree ?fl] =>
    destruct (build_structure_tree fl) eqn:E end; cbn [bind] in H; [discriminate|].
  injection H as <-. exact (build_from_raise_only _ _ _ E).
Qed.

Lemma parse_structure : forall content a cb,
  parse_codebase_response content a = Ok cb ->
  build_structure_tree (cb_files cb) = Ok (cb_structure cb).
Proof.
  intros content a cb H. unfold parse_codebase_response in H. cbv zeta in H.
  destruct (match Scan.scan content with [] => Alt.parse_alternative_format content a | _ => _ end)
    as [|f fs]; [injection H as <-; reflexivity|].
  match type of H with context [build_structure_tree ?fl] =>
    destruct (build_structure_tree fl) eqn:E end; cbn [bind] in H; [|discriminate].
  injection H as <-. exact E.
Qed.

Lemma fallback_structure : forall query a r cb,
  Fallback.generate_enhanced_fallback query a r = Ok cb ->
  build_structure_tree (cb_files cb) = Ok (cb_structure cb).
Proof.
  intros query a r cb H. unfold Fallback.generate_enhanced_fallback in H. cbv zeta in H.
  match type of H with context [build_structure_tree ?fl] =>
    destruct (build_structure_tree fl) eqn:E end; cbn [bind] in H; [|discriminate].
  injection H as <-. exact E.
Qed.

Lemma exn_type_error : forall msg, is_exception (TypeError msg) = true.
Proof. reflexivity. Qed.

Lemma generate_with_raise : forall reply query a codebase e,
  Agent.generate_with reply query a codebase = Raise e ->
  reply = Raise e /\ is_exception e = false.
Proof.
  intros reply query a codebase e H. unfold Agent.generate_with in H. cbv zeta in H.
  destruct reply as [content|e0]; cbn [bind] in H.
  - destruct codebase; [|discriminate].
    destruct (parse_codebase_response content a) as [p|e1] eqn:P; cbn [bind] in H; [discriminate|].
    destruct (parse_raise_only _ _ _ P) as [msg ->]. rewrite exn_type_error in H.
    destruct (enhanced_fallback_ok query a None) as [cb Hcb]. rewrite Hcb in H. discriminate.
  - destruct (is_exception e0) eqn:X.
    + destruct codebase; [|discriminate].
      destruct (enhanced_fallback_ok query a None) as [cb Hcb]. rewrite Hcb in H. discriminate.
    + injection H as <-. split; [reflexivity|exact X].
Qed.

Lemma generate_with_code_structure : forall reply query a r,
  Agent.generate_with reply query a true = Ok r ->
  exists cb, r = Agent.RCode cb /\ build_structure_tree (cb_files cb) = Ok (cb_structure cb).
Proof.
  intros reply query a r H. unfold Agent.generate_with in H. cbv zeta in H.
  destruct reply as [content|e0]; cbn [bind] in H.
  - destruct (parse_codebase_response content a) as [p|e1] eqn:P; cbn [bind] in H.
    + injection H as <-. exists p. split; [reflexivity|exact (parse_structure _ _ _ P)].
    + destruct (parse_raise_only _ _ _ P) as [msg ->]. rewrite exn_type_error in H.
      destruct (Fallback.generate_enhanced_fallback query a None) as [cb|e2] eqn:F;
        cbn [bind] in H; [|discriminate].
      injection H as <-. exists cb. split; [reflexivity|exact (fallback_structure _ _ _ _ F)].
  - destruct (is_exception e0); [|discriminate].
    destruct (Fallback.generate_enhanced_fallback query a None) as [cb|e2] eqn:F;
      cbn [bind] in H; [|discriminate].
    injection H as <-. exists cb. split; [reflexivity|exact (fallback_structure _ _ _ _ F)].
Qed.

Lemma check_result_ok : forall r query a, exists cb, Agent.check_result r query a = Ok cb.
Proof.
  intros r query a. unfold Agent.check_result.
  destruct r as [cb|t]; [destruct (cb_files cb) as [|f fs]; [|destruct (Gate.is_fallback_code (f :: fs))]|];
    first [apply enhanced_fallback_ok | eexists; reflexivity].
Qed.

Lemma check_result_structure : forall cb0 query a cb,
  build_structure_tree (cb_files cb0) = Ok (cb_structure cb0) ->
  Agent.check_result (Agent.RCode cb0) query a = Ok cb ->
  build_structure_tree (cb_files cb) = Ok (cb_structure cb).
Proof.
  intros cb0 query a cb H0 H. unfold Agent.check_result in H.
  destruct (cb_files cb0) as [|f fs] eqn:F; [exact (fallback_structure _ _ _ _ H)|].
  destruct (Gate.is_fallback_code (f :: fs)); [exact (fallback_structure _ _ _ _ H)|].
  injection H as <-. rewrite F. exact H0.
Qed.

Lemma generate_codebase_raise : forall ag replies query a e,
  snd (Agent.generate_codebase ag replies query a) = Raise e ->
  is_exception e = false /\ exists p, active_provider ag = Some p /\ replies p = Raise e.
Proof.
  intros ag replies query a e H. unfold Agent.generate_codebase, active_provider in *. cbv zeta in H.
  destruct (Agent.use_openai ag); [|destruct (Agent.use_anthropic ag); [|destruct (Agent.use_gemini ag)]];
    cbn [snd] in H;
  try (destruct (enhanced_fallback_ok query a None) as [cb Hcb]; rewrite Hcb in H; discriminate);
  (match type of H with context [Agent.generate_with ?rp query a true] =>
     destruct (Agent.generate_with rp query a true) as [r|e0] eqn:G end; cbn [bind] in H;
   [destruct (check_result_ok r query a) as [cb Hcb]; rewrite Hcb in H; discriminate|]);
  injection H as <-; destruct (generate_with_raise _ _ _ _ _ G) as [Hr He];
  (split; [exact He|eexists; split; [reflexivity|exact Hr]]).
Qed.

Lemma generate_text_response_raise : forall ag replies query a e,
  Query.generate_text_response ag replies query a = Raise e ->
  is_exception e = false /\ exists p, active_provider ag = Some p /\ replies p = Raise e.
Proof.
  intros ag replies query a e H. unfold Query.generate_text_response, active_provider in *. cbv zeta in H.
  destruct (Agent.use_openai ag); [|destruct (Agent.use_anthropic ag); [|destruct (Agent.use_gemini ag)]];
  try discriminate;
  (match type of H with context [Agent.generate_with ?rp query a false] =>
     destruct (Agent.generate_with rp query a false) as [r|e0] eqn:G end; cbn [bind] in H;
   [discriminate|]);
  injection H as <-; destruct (generate_with_raise _ _ _ _ _ G) as [Hr He];
  (split; [exact He|eexists; split; [reflexivity|exact Hr]]).
Qed.

Lemma generate_codebase_structure : forall ag replies query a cb,
  snd (Agent.generate_codebase ag replies query a) = Ok cb ->
  build_structure_tree (cb_files cb) = Ok (cb_structure cb).
Proof.
  intros ag replies query a cb H. unfold Agent.generate_codebase in H. cbv zeta in H.
  destruct (Agent.use_openai ag); [|destruct (Agent.use_anthropic ag); [|destruct (Agent.use_gemini ag)]];
    cbn [snd] in H; try exact (fallback_structure _ _ _ _ H);
  match type of H with context [Agent.generate_with ?rp query a true] =>
    destruct (Agent.generate_with rp query a true) as [r|e0] eqn:G end; cbn [bind] in H;
    try discriminate;
  destruct (generate_with_code_structure _ _ _ _ G) as [cb0 [-> H0]];
  exact (check_result_structure _ _ _ _ H0 H).
Qed.

(** [process_query] returns a codebase exactly when the analysis asks for
    code and [ENABLE_CODE_GENERATION] is set, with the analysis' language and
    framework and the codebase's own structure as metadata; otherwise it
    returns a text answer whose metadata reason is the analysis' reason. It
    lets no [Exception] out: the only thing it raises is an exception outside
    [Exception] (an interrupt, exit or cancellation) raised by the call to the
    enabled provider. *)
Theorem process_query_dispatch : forall s ag replies query,
  let a := analyze_query query in
  match Query.process_query s ag replies query with
  | Ok (Query.QCodebase cb l f st) =>
      should_generate_code a && Agent.ENABLE_CODE_GENERATION s = true /\
      l = language a /\ f = framework a /\ st = cb_structure cb
  | Ok (Query.QText t rsn) =>
      should_generate_code a && Agent.ENABLE_CODE_GENERATION s = false /\ rsn = reason a
  | Raise e =>
      is_exception e = false /\ exists p, active_provider ag = Some p /\ replies p = Raise e
  end.
Proof.
  intros s ag replies query a. unfold Query.process_query. fold a.
  destruct (should_generate_code a && Agent.ENABLE_CODE_GENERATION s) eqn:C.
  - destruct (snd (Agent.generate_codebase ag replies query a)) as [cb|e] eqn:G; cbn [bind].
    + repeat split; reflexivity.
    + exact (generate_codebase_raise _ _ _ _ _ G).
  - destruct (Query.generate_text_response ag replies query a) as [t|e] eqn:G; cbn [bind].
    + split; reflexivity.
    + exact (generate_text_response_raise _ _ _ _ _ G).
Qed.

(** Every codebase [_generate_codebase] returns, whether parsed from a
    provider's reply or synthesized by the fallback, carries as its
    [structure] exactly the tree [_build_structure_tree] builds from its
    [files]. *)
Theorem generate_codebase_structure_consistent : forall ag replies query a,
  match snd (Agent.generate_codebase ag replies query a) with
  | Ok cb => build_structure_tree (cb_files cb) = Ok (cb_structure cb)
  | Raise _ => True
  end.
Proof.
  intros ag replies query a.
  destruct (snd (Agent.generate_codebase ag replies query a)) eqn:G; [|exact I].
  exact (generate_codebase_structure _ _ _ _ _ G).
Qed.

(** A text answer of [process_query] is the enabled provider's reply text as
    it came back, unparsed; when that provider call raised an [Exception], it
    is ["Error generating response: "] followed by the exception's message;
    with no provider enabled it is the fixed "Response to query: ..." text
    built around the query. *)
Theorem process_query_text_answer : forall s ag replies query,
  match Query.process_query s ag replies query with
  | Ok (Query.QText t _) =>
      t = match active_provider ag with
          | Some p => match replies p with
                      | Ok c => c
                      | Raise e => Agent.error_prefix ++ exn_str e
                      end
          | None => Query.no_provider_text query
          end
  | _ => True
  end.
Proof.
  intros s ag replies query. unfold Query.process_query. cbv zeta.
  destruct (should_generate_code (analyze_query query) && Agent.ENABLE_CODE_GENERATION s).
  - destruct (snd (Agent.generate_codebase ag replies query (analyze_query query))); exact I.
  - destruct (Query.generate_text_response ag replies query (analyze_query query)) as [t|e] eqn:G;
      cbn [bind]; [|exact I].
    unfold Query.generate_text_response, active_provider in *. cbv zeta in G.
    destruct (Agent.use_openai ag); [|destruct (Agent.use_anthropic ag); [|destruct (Agent.use_gemini ag)]];
      [..|injection G as <-; reflexivity];
    (match type of G with context [Agent.generate_with ?rp _ _ false] =>
       destruct rp as [c|e] end; unfold Agent.generate_with in G; cbn [bind] in G;
     [injection G as <-; reflexivity|];
     destruct (is_exception e); [injection G as <-; reflexivity|discriminate]).
Qed.

(** ** [_create_basic_structure] *)

(** Whatever the analysis, the basic structure [_create_basic_structure]
    would build is judged a fallback by [_is_fallback_code]: its files hold
    "Hello, World" in a few short lines. *)
Theorem basic_structure_is_fallback : forall a,
  Gate.is_fallback_code (Basic.create_basic_structure a) = true.
Proof.
  intros a. unfold Basic.create_basic_structure.
  destruct (String.eqb (language a) "python"); [|destruct (Readme.is_js_ts (language a))];
    vm_compute; reflexivity.
Qed.

(** ** The quality gate: order and growth *)

Lemma is_fallback_code_exists : forall files,
  Gate.is_fallback_code files =
  match files with
  | [] => true
  | _ => if existsb (fun fc => Gate.substantial_placeholder (snd fc)) files then false
         else Gate.total_code_lines files <? 10
  end.
Proof.
  intros [|f fs]; [reflexivity|]. unfold Gate.is_fallback_code. apply check_files_exists.
Qed.

Lemma total_code_lines_app : forall f1 f2,
  Gate.total_code_lines (f1 ++ f2) = Gate.total_code_lines f1 + Gate.total_code_lines f2.
Proof.
  intros f1 f2. induction f1 as [|f f1 IH]; cbn [app Gate.total_code_lines fold_right]; [reflexivity|].
  unfold Gate.total_code_lines in *. rewrite IH. lia.
Qed.

Lemma total_code_lines_perm : forall f1 f2,
  Permutation f1 f2 -> Gate.total_code_lines f1 = Gate.total_code_lines f2.
Proof.
  intros f1 f2 P. unfold Gate.total_code_lines.
  induction P; cbn [fold_right]; lia.
Qed.

Lemma existsb_perm : forall {A} (p : A -> bool) l1 l2,
  Permutation l1 l2 -> existsb p l1 = existsb p l2.
Proof.
  intros A p l1 l2 P.
  destruct (existsb p l1) eqn:E1; destruct (existsb p l2) eqn:E2; try reflexivity.
  - apply existsb_exists in E1 as [x [Hx Hp]].
    assert (existsb p l2 = true) by (apply existsb_exists; exists x; split;
      [exact (Permutation_in _ P Hx)|exact Hp]). congruence.
  - apply existsb_exists in E2 as [x [Hx Hp]].
    assert (existsb p l1 = true) by (apply existsb_exists; exists x; split;
      [exact (Permutation_in _ (Permutation_sym P) Hx)|exact Hp]). congruence.
Qed.

(** [_is_fallback_code] does not depend on the order of the files mapping:
    reordering the files gives the same verdict, although its loop returns
    early on the first substantial placeholder file. *)
Theorem is_fallback_code_order_independent : forall f1 f2,
  Permutation f1 f2 -> Gate.is_fallback_code f1 = Gate.is_fallback_code f2.
Proof.
  intros f1 f2 P. rewrite !is_fallback_code_exists.
  destruct f1 as [|x f1]; [apply Permutation_nil in P; subst f2; reflexivity|].
  destruct f2 as [|y f2]; [apply Permutation_sym, Permutation_nil in P; discriminate|].
  rewrite (existsb_perm _ _ _ P), (total_code_lines_perm _ _ P). reflexivity.
Qed.

Lemma is_fallback_code_order_independent_witness :
  Gate.is_fallback_code ([("README.md", "# Project")] ++ gate_sample_files) =
  Gate.is_fallback_code (gate_sample_files ++ [("README.md", "# Project")]).
Proof.
  apply is_fallback_code_order_independent. apply Permutation_app_comm.
Defined.

(** Adding files to a mapping [_is_fallback_code] judges substantial never
    makes it fallback-quality: a substantial placeholder file keeps stopping
    the loop, and more files only add code lines. *)
Theorem is_fallback_code_append_keeps_real : forall f1 f2,
  Gate.is_fallback_code f1 = false -> Gate.is_fallback_code (f1 ++ f2) = false.
Proof.
  intros f1 f2 H. rewrite is_fallback_code_exists in *.
  destruct f1 as [|x f1]; [discriminate|].
  assert (Hc : exists y r, app (x :: f1) f2 = y :: r) by (eexists _, _; reflexivity).
  destruct Hc as [y [r Hr]]. rewrite Hr. cbv beta iota. rewrite <- Hr, existsb_app.
  destruct (existsb _ (x :: f1)); [reflexivity|]. cbn [orb].
  destruct (existsb _ f2); [reflexivity|].
  rewrite total_code_lines_app. apply Nat.ltb_ge. apply Nat.ltb_ge in H. lia.
Qed.

Lemma is_fallback_code_append_keeps_real_witness :
  Gate.is_fallback_code [("main.py", ten_lines)] = false /\
  Gate.is_fallback_code ([("main.py", ten_lines)] ++ [("README.md", "placeholder")]) = false.
Proof.
  split; [vm_compute; reflexivity|].
  apply is_fallback_code_append_keeps_real. vm_compute. reflexivity.
Defined.

(** ** The parser's README *)

Lemma in_keys_set_same : forall {V} k (v : V) d, In k (Dict.keys (Dict.set k v d)).
Proof. intros V k v d. exact (get_in_keys k _ v (get_set_same k v d)). Qed.

Lemma readme_exists_set : forall v d, readme_exists (Dict.set "README.md" v d) = true.
Proof.
  intros v d. unfold readme_exists. apply existsb_exists.
  exists "README.md". split; [apply in_keys_set_same|reflexivity].
Qed.

(** Every codebase [_parse_codebase_response] returns is either empty (no
    files and no structure) or has a README file: when the reply named none,
    a generated README.md was added. *)
Theorem parse_codebase_has_readme : forall content a,
  match parse_codebase_response content a with
  | Ok cb => (cb_files cb = [] /\ cb_structure cb = []) \/ readme_exists (cb_files cb) = true
  | Raise _ => True
  end.
Proof.
  intros content a. unfold parse_codebase_response. cbv zeta.
  destruct (match Scan.scan content with [] => Alt.parse_alternative_format content a | _ => _ end)
    as [|f fs]; [left; split; reflexivity|].
  destruct (readme_exists (f :: fs)) eqn:R;
  (match goal with |- context [build_structure_tree ?fl] =>
     destruct (build_structure_tree fl) eqn:E end; cbn [bind]; [|exact I]); right; cbn [cb_files].
  - exact R.
  - apply readme_exists_set.
Qed.

(** ** String search *)

Lemma contains_app_l : forall sub a b, contains sub b = true -> contains sub (a ++ b) = true.
Proof.
  intros sub a b H. induction a as [|c a IH]; [exact H|].
  cbn [append contains]. rewrite IH. apply orb_true_r.
Qed.

Lemma contains_app_r : forall sub a b, contains sub a = true -> contains sub (a ++ b) = true.
Proof.
  intros sub a b H. induction a as [|c a IH].
  - cbn [contains] in H. rewrite orb_false_r in H.
    destruct sub; [destruct b; reflexivity|discriminate].
  - cbn [contains] in H. apply orb_true_iff in H as [H|H].
    + apply prefix_app_ex in H as [r Hr].
      cbn [append contains].
      change (String c (a ++ b)) with (String c a ++ b). rewrite Hr, str_app_assoc, prefix_app.
      reflexivity.
    + cbn [append contains]. rewrite (IH H). apply orb_true_r.
Qed.

Lemma contains_mid : forall sub a y b, contains sub y = true -> contains sub (a ++ y ++ b) = true.
Proof. intros. apply contains_app_l, contains_app_r. assumption. Qed.

Lemma join_in : forall sep xs y, In y xs -> exists a b, join sep xs = a ++ y ++ b.
Proof.
  intros sep xs y. unfold join. induction xs as [|x xs IH]; intros H; [destruct H|].
  destruct H as [<-|H].
  - destruct xs as [|x' xs].
    + exists "", "". cbn. rewrite str_app_nil_r. reflexivity.
    + exists "", (sep ++ String.concat sep (x' :: xs)). reflexivity.
  - destruct (IH H) as [a [b E]]. destruct xs as [|x' xs]; [destruct H|].
    exists (x ++ sep ++ a), b.
    change (String.concat sep (x :: x' :: xs)) with (x ++ sep ++ String.concat sep (x' :: xs)).
    rewrite E, !str_app_assoc. reflexivity.
Qed.

Lemma contains_join : forall sub sep xs y,
  In y xs -> contains sub y = true -> contains sub (join sep xs) = true.
Proof.
  intros sub sep xs y Hin Hc. destruct (join_in sep xs y Hin) as [a [b ->]].
  apply contains_mid, Hc.
Qed.

Lemma lower_app : forall a b, lower (a ++ b) = lower a ++ lower b.
Proof. intros a b. induction a as [|c a IH]; cbn; [reflexivity|]. rewrite IH. reflexivity. Qed.

Ltac in_list := repeat (first [left; reflexivity | right]).

(** ** The fallback synthesizer's project files *)

Lemma package_json_main_start : forall requirements framework,
  contains (Fallback.quoted "main" ++ ": " ++ Fallback.quoted "main.js")
    (Fallback.generate_package_json requirements framework) = true /\
  contains (Fallback.quoted "start" ++ ": " ++ Fallback.quoted "node main.js")
    (Fallback.generate_package_json requirements framework) = true.
Proof.
  intros requirements framework. unfold Fallback.generate_package_json. cbv zeta. split.
  - apply contains_join with
      (y := "  " ++ Fallback.quoted "main" ++ ": " ++ Fallback.quoted "main.js" ++ ",");
      [in_list | vm_compute; reflexivity].
  - apply contains_join with
      (y := "    " ++ Fallback.quoted "start" ++ ": " ++ Fallback.quoted "node main.js");
      [in_list | vm_compute; reflexivity].
Qed.

(** For a TypeScript request the fallback writes [main.ts], [package.json]
    and [README.md], in that order; the [package.json] names [main.js] as its
    entry point and starts the project with ["node main.js"], a file the
    codebase does not contain. *)
Theorem typescript_fallback_runs_main_js : forall query a r,
  language a = "typescript" ->
  exists cb, Fallback.generate_enhanced_fallback query a r = Ok cb /\
    Dict.keys (cb_files cb) = ["main.ts"; "package.json"; "README.md"] /\
    exists p, Dict.get "package.json" (cb_files cb) = Some p /\
      contains (Fallback.quoted "main" ++ ": " ++ Fallback.quoted "main.js") p = true /\
      contains (Fallback.quoted "start" ++ ": " ++ Fallback.quoted "node main.js") p = true.
Proof.
  intros query a r H. unfold Fallback.generate_enhanced_fallback. cbv zeta. rewrite H.
  cbn -[Fallback.generate_js_code Fallback.generate_package_json Fallback.generate_readme
        Fallback.extract_requirements build_structure_tree].
  unfold build_structure_tree. cbn -[Fallback.generate_js_code Fallback.generate_package_json
        Fallback.generate_readme Fallback.extract_requirements].
  eexists. split; [reflexivity|]. split; [reflexivity|].
  eexists. split; [reflexivity|]. apply package_json_main_start.
Qed.

Lemma typescript_fallback_runs_main_js_witness :
  language (analyze_query "build a typescript todo app") = "typescript" /\
  exists cb, Fallback.generate_enhanced_fallback "build a typescript todo app"
               (analyze_query "build a typescript todo app") None = Ok cb /\
    Dict.keys (cb_files cb) = ["main.ts"; "package.json"; "README.md"] /\
    exists p, Dict.get "package.json" (cb_files cb) = Some p /\
      contains (Fallback.quoted "main" ++ ": " ++ Fallback.quoted "main.js") p = true /\
      contains (Fallback.quoted "start" ++ ": " ++ Fallback.quoted "node main.js") p = true.
Proof.
  split; [vm_compute; reflexivity|].
  apply typescript_fallback_runs_main_js. vm_compute. reflexivity.
Defined.

(** When neither Express nor React is the framework and the requirements do
    not mention "api", the [package.json] the fallback writes has the
    JavaScript comment "// Add dependencies here" inside its
    ["dependencies"] object, which JSON does not allow. *)
Theorem package_json_comment_without_deps : forall requirements framework,
  Fallback.fw_is framework "express" = false ->
  Fallback.fw_is framework "react" = false ->
  contains "api" (lower requirements) = false ->
  contains "// Add dependencies here" (Fallback.generate_package_json requirements framework) = true.
Proof.
  intros requirements framework He Hr Ha. unfold Fallback.generate_package_json. cbv zeta.
  rewrite He, Hr, Ha. cbn [orb app map].
  apply contains_join with (y := "    // Add dependencies here"); [in_list|vm_compute; reflexivity].
Qed.

Lemma package_json_comment_without_deps_witness :
  Fallback.fw_is None "express" = false /\ Fallback.fw_is None "react" = false /\
  contains "api" (lower (Fallback.extract_requirements "a csv tool")) = false /\
  contains "// Add dependencies here"
    (Fallback.generate_package_json (Fallback.extract_requirements "a csv tool") None) = true.
Proof.
  split; [reflexivity|]. split; [reflexivity|]. split; [vm_compute; reflexivity|].
  apply package_json_comment_without_deps; [reflexivity|reflexivity|vm_compute; reflexivity].
Defined.

Lemma in_nonempty_default : forall {A} (y : A) l d,
  In y l -> In y (match l with [] => d | _ => l end).
Proof. intros A y [|x l] d H; [destruct H|exact H]. Qed.

Lemma any_in_mid : forall k ks a y b,
  In k ks -> contains k y = true -> Fallback.any_in ks (a ++ y ++ b) = true.
Proof.
  intros k ks a y b Hk Hc. unfold Fallback.any_in. apply existsb_exists.
  exists k. split; [exact Hk|apply contains_mid, Hc].
Qed.

Lemma extract_requirements_database : forall query,
  Fallback.any_in ["database"; "db"; "sql"] (lower query) = true ->
  exists a b, lower (Fallback.extract_requirements query) = a ++ "- database integration" ++ b.
Proof.
  intros query H. unfold Fallback.extract_requirements. cbv zeta. rewrite H.
  match goal with |- context [join nl ?l] =>
    assert (Hin : In "- Database integration" l) end.
  { apply in_nonempty_default. apply in_or_app. right. apply in_or_app. left. left. reflexivity. }
  destruct (join_in nl _ _ Hin) as [a [b E]]. rewrite E, !lower_app.
  exists (lower a), (lower b). reflexivity.
Qed.

(** A Python fallback for a request that mentions a database ("database",
    "db" or "sql") lists pandas in its [requirements.txt] besides SQLAlchemy:
    the requirement line "- Database integration" added for it contains
    "data", which the dependency step takes for data-file processing. *)
Theorem database_request_pulls_pandas : forall query a r,
  language a = "python" ->
  Fallback.any_in ["database"; "db"; "sql"] (lower query) = true ->
  exists cb, Fallback.generate_enhanced_fallback query a r = Ok cb /\
    Dict.keys (cb_files cb) = ["main.py"; "requirements.txt"; "README.md"] /\
    exists deps, Dict.get "requirements.txt" (cb_files cb) = Some deps /\
      contains "sqlalchemy==2.0.23" deps = true /\ contains "pandas==2.1.3" deps = true.
Proof.
  intros query a r Hl Hq. unfold Fallback.generate_enhanced_fallback. cbv zeta. rewrite Hl.
  cbn -[Fallback.generate_python_code Fallback.generate_dependencies Fallback.generate_readme
        Fallback.extract_requirements build_structure_tree].
  unfold build_structure_tree. cbn -[Fallback.generate_python_code Fallback.generate_dependencies
        Fallback.generate_readme Fallback.extract_requirements].
  eexists. split; [reflexivity|]. split; [reflexivity|].
  eexists. split; [reflexivity|].
  unfold Fallback.generate_dependencies. cbv zeta.
  destruct (extract_requirements_database query Hq) as [x [y E]]. rewrite E.
  rewrite (any_in_mid "database" ["database"; "sql"] x "- database integration" y);
    [| left; reflexivity | vm_compute; reflexivity].
  rewrite (any_in_mid "data" ["csv"; "data"] x "- database integration" y);
    [| right; left; reflexivity | vm_compute; reflexivity].
  cbn [String.eqb Ascii.eqb Bool.eqb].
  destruct (Fallback.fw_is (framework a) "fastapi"); [|destruct (Fallback.fw_is (framework a) "flask")];
    (cbn [app]; split;
     [apply contains_join with (y := "sqlalchemy==2.0.23")
     |apply contains_join with (y := "pandas==2.1.3")]; first [vm_compute; reflexivity | in_list]).
Qed.

Lemma database_request_pulls_pandas_witness :
  language (analyze_query "create a python app with a sql database") = "python" /\
  Fallback.any_in ["database"; "db"; "sql"] (lower "create a python app with a sql database") = true /\
  exists cb, Fallback.generate_enhanced_fallback "create a python app with a sql database"
               (analyze_query "create a python app with a sql database") None = Ok cb /\
    Dict.keys (cb_files cb) = ["main.py"; "requirements.txt"; "README.md"] /\
    exists deps, Dict.get "requirements.txt" (cb_files cb) = Some deps /\
      contains "sqlalchemy==2.0.23" deps = true /\ contains "pandas==2.1.3" deps = true.
Proof.
  split; [vm_compute; reflexivity|]. split; [vm_compute; reflexivity|].
  apply database_request_pulls_pandas; vm_compute; reflexivity.
Defined.

(** ** Where the zip writer puts each file *)

Lemma prefix_char_cons : forall c x t,
  prefix (String c "") (String x t) = prefix (String c "") (String x "").
Proof. intros c x t. cbn [prefix]. destruct (ascii_dec c x); [destruct t|]; reflexivity. Qed.

Lemma contains_char_app : forall c a b,
  contains (String c "") (a ++ b) = contains (String c "") a || contains (String c "") b.
Proof.
  intros c a b. induction a as [|x a IH]; [reflexivity|].
  cbn [append contains]. rewrite IH, (prefix_char_cons c x (a ++ b)), (prefix_char_cons c x a).
  apply orb_assoc.
Qed.

Lemma contains_char_reverse : forall c s,
  contains (String c "") s = false -> contains (String c "") (reverse s) = false.
Proof.
  intros c s. induction s as [|x s IH]; intros H; [reflexivity|].
  cbn [contains] in H. apply orb_false_elim in H as [H1 H2].
  rewrite reverse_cons, contains_char_app, (IH H2). cbn [contains orb].
  rewrite (prefix_char_cons c x s) in H1. rewrite H1. reflexivity.
Qed.

Lemma endswith_codebase_dir : forall ts,
  contains "/" ts = false -> endswith ("outputs/codebase_" ++ ts) "/" = false.
Proof.
  intros ts H. unfold endswith. rewrite reverse_app.
  apply contains_char_reverse in H.
  destruct (reverse ts) as [|x u]; [reflexivity|].
  cbn [contains] in H. apply orb_false_elim in H as [H1 _].
  cbn [append]. rewrite (prefix_char_cons "/" x u) in H1.
  change (reverse "/") with "/". rewrite prefix_char_cons. exact H1.
Qed.

Lemma splitroot_relative : forall p,
  startswith p "/" = false -> PathLib.splitroot p = ("", p).
Proof. intros p H. unfold PathLib.splitroot. rewrite H. reflexivity. Qed.

(** The zip writer places a file at [outputs/codebase_<timestamp>/] followed
    by the file key's own path segments, [..] segments included (pathlib
    keeps them, so a key such as ["../x"] lands outside the codebase
    directory); an absolute key replaces the whole prefix and the file is
    written at that absolute path. The timestamp is [%Y%m%d_%H%M%S], free of
    ['/']. *)
Theorem zip_entry_path_spec : forall ts k,
  contains "/" ts = false ->
  PathLib.zip_entry_path ts k =
    if startswith k "/" then PathLib.parse_path k
    else {| PathLib.root := "";
            PathLib.parts := "outputs" :: ("codebase_" ++ ts) :: PathLib.parts (PathLib.parse_path k) |}.
Proof.
  intros ts k H. unfold PathLib.zip_entry_path.
  assert (J1 : PathLib.posix_join "outputs" ("codebase_" ++ ts) = "outputs/codebase_" ++ ts)
    by reflexivity.
  rewrite J1. unfold PathLib.posix_join at 1.
  destruct (startswith k "/") eqn:Hk; [reflexivity|].
  rewrite endswith_codebase_dir by exact H. cbn [truthy negb orb].
  unfold PathLib.parse_path. rewrite (splitroot_relative k Hk).
  rewrite splitroot_relative by reflexivity.
  change (truthy ("outputs/codebase_" ++ ts)) with true. cbn [negb orb].
  unfold Py.split. change PathLib.slash with "/"%char.
  change (split_acc "/"%char (("outputs/codebase_" ++ ts) ++ "/" ++ k) "")
    with (split_acc "/"%char ("outputs" ++ String "/" (("codebase_" ++ ts) ++ String "/" k)) "").
  rewrite split_acc_app by reflexivity.
  rewrite split_acc_app by (rewrite contains_char_app; exact H).
  reflexivity.
Qed.

Lemma zip_entry_path_spec_witness :
  contains "/" "20250101_120000" = false /\
  PathLib.zip_entry_path "20250101_120000" "../../etc/cron.d/job" =
    if startswith "../../etc/cron.d/job" "/" then PathLib.parse_path "../../etc/cron.d/job"
    else {| PathLib.root := "";
            PathLib.parts := "outputs" :: ("codebase_" ++ "20250101_120000")
                             :: PathLib.parts (PathLib.parse_path "../../etc/cron.d/job") |}.
Proof.
  split; [reflexivity|]. apply zip_entry_path_spec. reflexivity.
Defined.

(** ** Names of the blocks of the alternative format *)

Lemma of_nat_inj : forall i j, of_nat i = of_nat j -> i = j.
Proof.
  intros i j H. unfold of_nat in H.
  apply (f_equal NilEmpty.uint_of_string) in H. rewrite !NilEmpty.usu in H.
  injection H as H. apply (f_equal Nat.of_uint) in H.
  rewrite !DecimalNat.Unsigned.of_to in H. exact H.
Qed.

Lemma of_nat_no_dot : forall n, contains "." (of_nat n) = false.
Proof.
  intros n. unfold of_nat. induction (Nat.to_uint n) as [|d IH|d IH|d IH|d IH|d IH|d IH|d IH|d IH|d IH|d IH];
    [reflexivity|..]; cbn [NilEmpty.string_of_uint contains]; rewrite prefix_char_cons, IH; reflexivity.
Qed.

Lemma dot_split : forall x y e1 e2,
  contains "." x = false -> contains "." y = false ->
  x ++ String "." e1 = y ++ String "." e2 -> x = y.
Proof.
  induction x as [|c x IH]; intros [|c' y] e1 e2 Hx Hy E; cbn [append] in E; [reflexivity|..].
  - injection E as Ec _. subst c'. cbn [contains] in Hy. rewrite prefix_char_cons in Hy. discriminate.
  - injection E as Ec _. subst c. cbn [contains] in Hx. rewrite prefix_char_cons in Hx. discriminate.
  - injection E as <- E. cbn [contains] in Hx, Hy.
    apply orb_false_elim in Hx as [_ Hx]. apply orb_false_elim in Hy as [_ Hy].
    rewrite (IH y e1 e2 Hx Hy E). reflexivity.
Qed.

Lemma alt_block_name_inj : forall i j e1 e2, alt_block_name i e1 = alt_block_name j e2 -> i = j.
Proof.
  intros [|i] [|j] e1 e2 E; cbn [alt_block_name append] in E; try discriminate; [reflexivity|].
  injection E as E.
  apply dot_split in E; [|apply of_nat_no_dot|apply of_nat_no_dot]. exact (of_nat_inj _ _ E).
Qed.

Lemma set_absent : forall {V} k (v : V) d, ~ In k (Dict.keys d) -> Dict.set k v d = app d [(k, v)].
Proof.
  intros V k v d. induction d as [|[k' v'] d IH]; intros H; [reflexivity|].
  cbn [Dict.set]. destruct (String.eqb_spec k k') as [->|_].
  - exfalso. apply H. left. reflexivity.
  - rewrite IH; [reflexivity|]. intros Hin. apply H. right. exact Hin.
Qed.

Lemma keys_app : forall {V} (d1 d2 : list (string * V)), Dict.keys (app d1 d2) = app (Dict.keys d1) (Dict.keys d2).
Proof. intros. apply map_app. Qed.

Lemma add_blocks_cons : forall i language lang code blocks files,
  Alt.add_blocks i language ((lang, code) :: blocks) files =
  Alt.add_blocks (S i) language blocks
    (Dict.set (alt_block_name i
                 (match Dict.get (lower (if truthy lang then lang else language)) Alt.alt_ext_map with
                  | Some e => e | None => "txt" end))
              (strip code) files).
Proof. reflexivity. Qed.

Lemma add_blocks_spec : forall blocks i language files,
  NoDup (Dict.keys files) ->
  (forall k, In k (Dict.keys files) -> forall j e, i <= j -> k <> alt_block_name j e) ->
  NoDup (Dict.keys (Alt.add_blocks i language blocks files)) /\
  map snd (Alt.add_blocks i language blocks files) =
    app (map snd files) (map (fun b => strip (snd b)) blocks) /\
  (forall k, In k (Dict.keys (Alt.add_blocks i language blocks files)) ->
     In k (Dict.keys files) \/ exists j e, k = alt_block_name j e).
Proof.
  induction blocks as [|[lang code] blocks IH]; intros i language files Hnd Hfree.
  - cbn [Alt.add_blocks map]. rewrite app_nil_r. split; [exact Hnd|split; [reflexivity|]].
    intros k Hk. left. exact Hk.
  - rewrite add_blocks_cons.
    set (n := alt_block_name i _).
    assert (Hn : ~ In n (Dict.keys files)) by (intros Hin; exact (Hfree n Hin i _ (le_n i) eq_refl)).
    rewrite (set_absent _ _ _ Hn).
    destruct (IH (S i) language (app files [(n, strip code)])) as [H1 [H2 H3]].
    + rewrite keys_app. cbn [Dict.keys map fst].
      apply (Permutation_NoDup (Permutation_cons_append _ _)). constructor; assumption.
    + intros k Hk j e Hj. rewrite keys_app in Hk. apply in_app_or in Hk as [Hk|[<-|[]]].
      * apply (Hfree k Hk j e). lia.
      * intros E. apply alt_block_name_inj in E. lia.
    + split; [exact H1|split].
      * rewrite H2, map_app, <- app_assoc. reflexivity.
      * intros k Hk. destruct (H3 k Hk) as [Hk'|Hk']; [|right; exact Hk'].
        rewrite keys_app in Hk'. apply in_app_or in Hk' as [Hk'|[<-|[]]]; [left; exact Hk'|].
        right. eexists _, _. reflexivity.
Qed.

(** [_parse_alternative_format] stores every fenced block the regex finds,
    in order and under pairwise distinct names ([main.<ext>], then
    [file_1.<ext>], [file_2.<ext>], ...), so blocks in the same language do
    not overwrite each other; after them it appends at most one more file,
    the README made from the prose. *)
Theorem alternative_format_keeps_every_block : forall content a,
  NoDup (Dict.keys (Alt.parse_alternative_format content a)) /\
  exists readme,
    map snd (Alt.parse_alternative_format content a) =
      app (map (fun b => strip (snd b)) (Alt.findall_blocks content)) readme /\
    length readme <= 1.
Proof.
  intros content a. unfold Alt.parse_alternative_format. cbv zeta.
  destruct (add_blocks_spec (Alt.findall_blocks content) 0 (language a) [])
    as [H1 [H2 H3]]; [constructor|intros k []|].
  destruct (truthy _ && _).
  - assert (Hr : ~ In "README.md" (Dict.keys (Alt.add_blocks 0 (language a) (Alt.findall_blocks content) [])))
      by (intros Hin; destruct (H3 _ Hin) as [[]|[[|j] [e E]]]; discriminate).
    rewrite (set_absent _ _ _ Hr), keys_app. split.
    + apply (Permutation_NoDup (Permutation_cons_append _ _)). constructor; assumption.
    + eexists. rewrite map_app, H2. cbn [map app snd]. split; [reflexivity|cbn; lia].
  - split; [exact H1|]. exists []. rewrite H2. cbn [map app]. rewrite app_nil_r.
    split; [reflexivity|cbn; lia].
Qed.

(** ** File names are never empty *)

Lemma set_named : forall k (v : string) d,
  named_files d -> truthy k = true -> named_files (Dict.set k v d).
Proof.
  intros k v d. unfold named_files. induction d as [|[k' v'] d IH]; intros H Hk.
  - constructor; [exact Hk|constructor].
  - inversion H as [|x l Hx Hd]. subst. cbn [Dict.set].
    destruct (String.eqb k k'); cbn [Dict.keys map fst]; constructor; try assumption.
    apply IH; assumption.
Qed.

Lemma commit_named : forall st,
  Scan.has_file (Scan.current_file st) = true -> named_files (Scan.files st) ->
  named_files (Scan.commit st).
Proof.
  intros st Hf H. unfold Scan.commit. unfold Scan.has_file in Hf.
  destruct (Scan.current_file st) as [f|]; [|discriminate]. apply set_named; assumption.
Qed.

Lemma step_named : forall st line,
  named_files (Scan.files st) -> named_files (Scan.files (Scan.step st line)).
Proof.
  intros st line H. unfold Scan.step.
  destruct (startswith (strip line) "FILE:"); cbn [Scan.files].
  { destruct (Scan.has_file (Scan.current_file st)) eqn:Hf; [apply commit_named|]; assumption. }
  destruct (startswith (strip line) "```").
  { destruct (negb (Scan.in_code_block st)); cbv zeta; cbn [Scan.files]; [exact H|].
    destruct (Scan.has_file (Scan.current_file st)) eqn:Hf; cbn [Scan.files]; [|exact H].
    destruct (Scan.current_content st); [exact H|apply commit_named; assumption]. }
  destruct (Scan.has_file (Scan.current_file st)); cbn [Scan.files]; [exact H|].
  destruct (truthy (strip line) && _ && _); [|exact H].
  destruct (negb (existsb Scan.readme_like (Dict.keys (Scan.files st)))); [|exact H].
  destruct (Dict.get "README.md" (Scan.files st)); cbn [Scan.files];
    (apply set_named; [exact H|reflexivity]).
Qed.

Lemma scan_named : forall content, named_files (Scan.scan content).
Proof.
  intros content. unfold Scan.scan, Scan.scan_lines.
  assert (G : forall lines st, named_files (Scan.files st) ->
                named_files (Scan.files (fold_left Scan.step lines st))).
  { induction lines as [|l lines IH]; intros st H; [exact H|]. apply IH, step_named, H. }
  assert (H := G (split_lines content) Scan.init (Forall_nil _)).
  unfold Scan.finish.
  destruct (Scan.has_file (Scan.current_file _) && _) eqn:C; [|exact H].
  apply andb_true_iff in C as [C _]. apply commit_named; assumption.
Qed.

Lemma alt_named : forall content a, named_files (Alt.parse_alternative_format content a).
Proof.
  intros content a. unfold Alt.parse_alternative_format. cbv zeta.
  destruct (add_blocks_spec (Alt.findall_blocks content) 0 (language a) [])
    as [_ [_ H3]]; [constructor|intros k []|].
  assert (N : named_files (Alt.add_blocks 0 (language a) (Alt.findall_blocks content) [])).
  { unfold named_files. apply Forall_forall. intros k Hk.
    destruct (H3 k Hk) as [[]|[[|j] [e ->]]]; reflexivity. }
  destruct (truthy _ && _); [apply set_named; [exact N|reflexivity]|exact N].
Qed.

(** No file of a codebase [_parse_codebase_response] returns has an empty
    name: a "FILE:" marker with nothing after it opens no file (the lines
    that follow are treated as prose), the fallback names are [main.<ext>]
    and [file_<i>.<ext>], and the README is [README.md]. *)
Theorem parse_codebase_names_nonempty : forall content a,
  match parse_codebase_response content a with
  | Ok cb => Forall (fun k => truthy k = true) (Dict.keys (cb_files cb))
  | Raise _ => True
  end.
Proof.
  intros content a. unfold parse_codebase_response. cbv zeta.
  assert (N : named_files (match Scan.scan content with
                           | [] => Alt.parse_alternative_format content a | _ => Scan.scan content end)).
  { destruct (Scan.scan content) eqn:E; [apply alt_named|rewrite <- E; apply scan_named]. }
  destruct (match Scan.scan content with [] => Alt.parse_alternative_format content a | _ => _ end)
    as [|f fs]; [constructor|].
  assert (N' : named_files (if readme_exists (f :: fs) then f :: fs
                            else Dict.set "README.md"
                                   (Readme.generate_comprehensive_readme (f :: fs) (language a) (framework a))
                                   (f :: fs))).
  { destruct (readme_exists (f :: fs)); [exact N|apply set_named; [exact N|reflexivity]]. }
  destruct (build_structure_tree _); cbn [bind]; [exact N'|exact I].
Qed.

(** ** The requirements list *)

Lemma split_join : forall sep xs,
  xs <> [] -> Forall (fun x => contains (String sep "") x = false) xs ->
  split sep (join (String sep "") xs) = xs.
Proof.
  intros sep xs Hne H. unfold split, join. induction xs as [|x xs IH]; [congruence|].
  inversion H as [|y l Hx Hxs]; subst.
  destruct xs as [|x' xs].
  - cbn [String.concat]. rewrite split_acc_free by exact Hx. reflexivity.
  - change (String.concat (String sep "") (x :: x' :: xs))
      with (x ++ String sep (String.concat (String sep "") (x' :: xs))).
    rewrite split_acc_app by exact Hx. rewrite IH; [reflexivity|discriminate|exact Hxs].
Qed.

Ltac forall_reqs :=
  repeat match goal with
         | |- Forall _ (app _ _) => apply Forall_app; split
         | |- Forall _ (if ?c then _ else _) => destruct c
         | |- Forall _ (_ :: _) => constructor
         | |- Forall _ [] => constructor
         | |- _ => cbv beta; repeat split; vm_compute; reflexivity
         end.

Lemma lines_of_join : forall xs,
  xs <> [] -> Forall (fun x => contains nl x = false) xs -> split_lines (join nl xs) = xs.
Proof. intros xs. apply split_join. Qed.

(** The requirements text of the fallback is a bullet list: split into
    lines, it gives one or more lines, each starting with "- ", and the
    generic line "- Implement the functionality described in the user's
    request" only ever comes alone. *)
Theorem requirements_bullet_lines : forall query,
  let lines := split_lines (Fallback.extract_requirements query) in
  lines <> [] /\ Forall (fun l => startswith l "- " = true) lines /\
  (In default_requirement lines -> lines = [default_requirement]).
Proof.
  intros query. cbv zeta. unfold Fallback.extract_requirements. cbv zeta.
  match goal with |- context [match ?l with [] => _ | _ :: _ => _ end] => set (reqs := l) end.
  assert (F : Forall (fun l => contains nl l = false /\ startswith l "- " = true /\
                               String.eqb l default_requirement = false) reqs)
    by (unfold reqs; forall_reqs).
  destruct reqs as [|r rs].
  - rewrite lines_of_join; [|discriminate|constructor; [reflexivity|constructor]].
    split; [discriminate|split; [constructor; [reflexivity|constructor]|intros _; reflexivity]].
  - rewrite lines_of_join; [|discriminate|exact (Forall_impl _ (fun l H => proj1 H) F)].
    split; [discriminate|split; [exact (Forall_impl _ (fun l H => proj1 (proj2 H)) F)|]].
    intros Hin. rewrite Forall_forall in F. destruct (F _ Hin) as [_ [_ E]].
    rewrite String.eqb_refl in E. discriminate.
Qed.

(** ** Language detection *)

(** [_detect_language] matches its keywords as substrings of the lowered
    query, in table order: a query with none of the Python, JavaScript,
    TypeScript or Java keywords in it but with "go" anywhere inside a word
    ("good", "algorithm", "google") is classified as Go. *)
Theorem detect_language_go_substring : forall query,
  existsb (fun kw => contains kw (lower query))
    (["python"; "py"; "django"; "flask"; "fastapi"] ++
     ["javascript"; "js"; "node"; "react"; "vue"; "angular"] ++
     ["typescript"; "ts"] ++ ["java"; "spring"; "maven"]) = false ->
  contains "go" (lower query) = true ->
  detect_language query = "go".
Proof.
  intros query H Hgo. rewrite !existsb_app in H.
  apply orb_false_elim in H as [H1 H].
  apply orb_false_elim in H as [H2 H].
  apply orb_false_elim in H as [H3 H4].
  unfold detect_language, language_keywords. cbv zeta. cbn [find snd].
  rewrite H1, H2, H3, H4. cbn [existsb]. rewrite Hgo. reflexivity.
Qed.

Lemma detect_language_go_substring_witness :
  existsb (fun kw => contains kw (lower "Create a good web app"))
    (["python"; "py"; "django"; "flask"; "fastapi"] ++
     ["javascript"; "js"; "node"; "react"; "vue"; "angular"] ++
     ["typescript"; "ts"] ++ ["java"; "spring"; "maven"]) = false /\
  contains "go" (lower "Create a good web app") = true /\
  detect_language "Create a good web app" = "go".
Proof.
  split; [vm_compute; reflexivity|]. split; [vm_compute; reflexivity|].
  apply detect_language_go_substring; vm_compute; reflexivity.
Defined.
